(** * Aurae root CA issuance (pkg/pki/pki.go)

    A shallow embedding of [CreateAuraeRootCA] and its helpers
    [createCAFiles], [writeStringToFile], [getCertBuf] and [getKeyBuf].

    The Go standard library the package calls (crypto/rsa, crypto/rand,
    crypto/sha1, crypto/x509, encoding/pem, os, path/filepath) is not part of
    the package: it is taken as an interface, the class [GoLib], and every
    statement about the package holds for every implementation of it.  The
    randomness source, the wall clock and the file system are the three
    components of an explicit [World] that the package's functions thread. *)

From Stdlib Require Import ZArith NArith List String Ascii Bool Lia.
From Stdlib Require Import Strings.Byte.
Import ListNotations.
Open Scope Z_scope.
Open Scope string_scope.

(** ** Go values *)

(** A pointer is either nil or the address of a value; no claim depends on
    the identity of the addresses, so a non-nil pointer is its pointee. *)
Definition ptr (A : Type) : Type := option A.

(** The [error] interface.  [LibError] is an error made outside the package,
    [Errorf prefix cause] is [fmt.Errorf(prefix + "%w", cause)] where [prefix]
    is the formatted text that precedes the wrapping verb.  A nil error is
    [None] of [option error]. *)
Inductive error : Type :=
| LibError (msg : string)
| Errorf (prefix : string) (cause : error).

Fixpoint Error (e : error) : string :=
  match e with
  | LibError msg => msg
  | Errorf prefix cause => prefix ++ Error cause
  end.

Definition Unwrap (e : error) : option error :=
  match e with
  | LibError _ => None
  | Errorf _ cause => Some cause
  end.

(** The outcome of a library call that returns [(value, error)] and whose
    value is meaningless when the error is not nil. *)
Inductive result (A : Type) : Type :=
| Ok (a : A)
| Err (e : error).
Arguments Ok {A} a.
Arguments Err {A} e.

(** The value half of such a pair when it is a pointer: nil on failure. *)
Definition value {A : Type} (r : result A) : ptr A :=
  match r with
  | Ok a => Some a
  | Err _ => None
  end.

(** [[]byte], a byte slice. *)
Definition bytes : Type := list byte.

(** ** math/big *)

Module big.

Definition byte_of_N (n : N) : byte :=
  match Byte.of_N n with
  | Some b => b
  | None => x00
  end.

Fixpoint be_digits (fuel : nat) (n : N) (acc : bytes) : bytes :=
  match fuel with
  | O => acc
  | S fuel' =>
      if N.eqb n 0 then acc
      else be_digits fuel' (N.div n 256) (byte_of_N (N.modulo n 256) :: acc)
  end.

(** [x.Bytes()]: the absolute value of [x] as a big-endian byte slice,
    without leading zero bytes. *)
Definition Bytes (x : Z) : bytes :=
  be_digits (N.to_nat (N.size (Z.abs_N x))) (Z.abs_N x) [].

(** [new(big.Int).Lsh(x, n)] *)
Definition Lsh (x : Z) (n : Z) : Z := Z.shiftl x n.

(** The value a big-endian byte slice denotes ([SetBytes]). *)
Definition SetBytes (b : bytes) : Z :=
  fold_left (fun acc d => 256 * acc + Z.of_N (Byte.to_N d)) b 0.

End big.

(** ** time *)

Module time.

(** An instant, in nanoseconds since the epoch; a [Duration] is an int64
    count of nanoseconds. *)
Definition Time : Type := Z.
Definition Duration : Type := Z.

Definition Nanosecond : Duration := 1.
Definition Microsecond : Duration := 1000 * Nanosecond.
Definition Millisecond : Duration := 1000 * Microsecond.
Definition Second : Duration := 1000 * Millisecond.
Definition Minute : Duration := 60 * Second.
Definition Hour : Duration := 60 * Minute.

Definition minDuration : Duration := - 2 ^ 63.
Definition maxDuration : Duration := 2 ^ 63 - 1.

(** [t.Add(d)] *)
Definition Add (t : Time) (d : Duration) : Time := t + d.

(** [t.Sub(u)]: the difference, saturated to the range of [Duration]. *)
Definition Sub (t u : Time) : Duration :=
  let d := t - u in
  if Z.ltb maxDuration d then maxDuration
  else if Z.ltb d minDuration then minDuration
  else d.

(** [t.Unix()]: whole seconds since the epoch. *)
Definition Unix (t : Time) : Z := Z.div t Second.

End time.

(** ** crypto/rsa, crypto/x509/pkix, crypto/x509, encoding/pem *)

Module rsa.

Record PublicKey : Type := { N : Z; E : Z }.

Record PrivateKey : Type := {
  Public : PublicKey;
  D : Z;
  Primes : list Z
}.

End rsa.

Module pkix.

(** [Names] and [ExtraNames], which the package never assigns, are left
    out. *)
Record Name : Type := {
  Country : list string;
  Organization : list string;
  OrganizationalUnit : list string;
  Locality : list string;
  Province : list string;
  StreetAddress : list string;
  PostalCode : list string;
  SerialNumber : string;
  CommonName : string
}.

End pkix.

Module x509.

(** The fields of [x509.Certificate] the package assigns; the others keep
    their zero value throughout and are left out. *)
Record Certificate : Type := {
  SerialNumber : ptr Z;
  Subject : pkix.Name;
  NotBefore : time.Time;
  NotAfter : time.Time;
  BasicConstraintsValid : bool;
  IsCA : bool;
  SubjectKeyId : bytes;
  AuthorityKeyId : bytes;
  DNSNames : list string
}.

End x509.

Module pem.

Record Block : Type := {
  Type_ : string;
  Headers : list (string * string);
  Bytes : bytes
}.

End pem.

Module os.

Definition FileMode : Type := Z.
Definition ModePerm : FileMode := 0x1ff.

(** Open flags, with their values on Linux. *)
Definition O_WRONLY : Z := 0x1.
Definition O_CREATE : Z := 0x40.
Definition O_TRUNC : Z := 0x200.

End os.

(** ** The library interface *)

(** [Entropy] is the state of [rand.Reader], [FS] the state of the file
    system, [File] an open [*os.File].  A call that reads randomness returns
    the new state of the reader; a call on the file system returns the new
    state of the file system. *)
Class GoLib (Entropy FS File : Type) : Type := {
  rsa_GenerateKey : Entropy -> Z -> result rsa.PrivateKey * Entropy;
  rand_Int : Entropy -> Z -> result Z * Entropy;
  sha1_Sum : bytes -> bytes;
  x509_CreateCertificate :
    Entropy -> x509.Certificate -> x509.Certificate ->
    rsa.PublicKey -> rsa.PrivateKey -> result bytes * Entropy;
  x509_MarshalPKCS1PrivateKey : rsa.PrivateKey -> bytes;
  pem_Encode : bytes -> pem.Block -> option error * bytes;
  filepath_Clean : string -> string;
  filepath_Join : string -> string -> string;
  os_MkdirAll : string -> os.FileMode -> FS -> option error * FS;
  os_OpenFile : string -> Z -> os.FileMode -> FS -> result File * FS;
  File_WriteString : File -> string -> FS -> (Z * option error) * FS;
  File_Close : File -> FS -> option error * FS
}.

(** The documented contract of [rand.Int]: for a positive [max], a value it
    returns lies in [[0, max)]. *)
Definition rand_Int_in_range {Entropy FS File : Type}
    (L : GoLib Entropy FS File) : Prop :=
  forall (r r' : Entropy) (max n : Z),
    0 < max -> rand_Int r max = (Ok n, r') -> 0 <= n < max.

(** Field assignments on a certificate template,
    [template.F = v]. *)
Module set.
Import x509.

Definition SerialNumber (c : Certificate) (v : ptr Z) : Certificate :=
  {| x509.SerialNumber := v; Subject := Subject c; NotBefore := NotBefore c;
     NotAfter := NotAfter c; BasicConstraintsValid := BasicConstraintsValid c;
     IsCA := IsCA c; SubjectKeyId := SubjectKeyId c;
     AuthorityKeyId := AuthorityKeyId c; DNSNames := DNSNames c |}.

Definition Subject (c : Certificate) (v : pkix.Name) : Certificate :=
  {| x509.SerialNumber := x509.SerialNumber c; x509.Subject := v;
     NotBefore := NotBefore c; NotAfter := NotAfter c;
     BasicConstraintsValid := BasicConstraintsValid c; IsCA := IsCA c;
     SubjectKeyId := SubjectKeyId c; AuthorityKeyId := AuthorityKeyId c;
     DNSNames := DNSNames c |}.

Definition NotBefore (c : Certificate) (v : time.Time) : Certificate :=
  {| x509.SerialNumber := x509.SerialNumber c; x509.Subject := x509.Subject c;
     x509.NotBefore := v; NotAfter := NotAfter c;
     BasicConstraintsValid := BasicConstraintsValid c; IsCA := IsCA c;
     SubjectKeyId := SubjectKeyId c; AuthorityKeyId := AuthorityKeyId c;
     DNSNames := DNSNames c |}.

Definition NotAfter (c : Certificate) (v : time.Time) : Certificate :=
  {| x509.SerialNumber := x509.SerialNumber c; x509.Subject := x509.Subject c;
     x509.NotBefore := x509.NotBefore c; x509.NotAfter := v;
     BasicConstraintsValid := BasicConstraintsValid c; IsCA := IsCA c;
     SubjectKeyId := SubjectKeyId c; AuthorityKeyId := AuthorityKeyId c;
     DNSNames := DNSNames c |}.

Definition IsCA (c : Certificate) (v : bool) : Certificate :=
  {| x509.SerialNumber := x509.SerialNumber c; x509.Subject := x509.Subject c;
     x509.NotBefore := x509.NotBefore c; x509.NotAfter := x509.NotAfter c;
     BasicConstraintsValid := BasicConstraintsValid c; x509.IsCA := v;
     SubjectKeyId := SubjectKeyId c; AuthorityKeyId := AuthorityKeyId c;
     DNSNames := DNSNames c |}.

Definition BasicConstraintsValid (c : Certificate) (v : bool) : Certificate :=
  {| x509.SerialNumber := x509.SerialNumber c; x509.Subject := x509.Subject c;
     x509.NotBefore := x509.NotBefore c; x509.NotAfter := x509.NotAfter c;
     x509.BasicConstraintsValid := v; x509.IsCA := x509.IsCA c;
     SubjectKeyId := SubjectKeyId c; AuthorityKeyId := AuthorityKeyId c;
     DNSNames := DNSNames c |}.

Definition DNSNames (c : Certificate) (v : list string) : Certificate :=
  {| x509.SerialNumber := x509.SerialNumber c; x509.Subject := x509.Subject c;
     x509.NotBefore := x509.NotBefore c; x509.NotAfter := x509.NotAfter c;
     x509.BasicConstraintsValid := x509.BasicConstraintsValid c;
     x509.IsCA := x509.IsCA c; SubjectKeyId := SubjectKeyId c;
     AuthorityKeyId := AuthorityKeyId c; x509.DNSNames := v |}.

Definition SubjectKeyId (c : Certificate) (v : bytes) : Certificate :=
  {| x509.SerialNumber := x509.SerialNumber c; x509.Subject := x509.Subject c;
     x509.NotBefore := x509.NotBefore c; x509.NotAfter := x509.NotAfter c;
     x509.BasicConstraintsValid := x509.BasicConstraintsValid c;
     x509.IsCA := x509.IsCA c; x509.SubjectKeyId := v;
     AuthorityKeyId := AuthorityKeyId c; x509.DNSNames := x509.DNSNames c |}.

Definition AuthorityKeyId (c : Certificate) (v : bytes) : Certificate :=
  {| x509.SerialNumber := x509.SerialNumber c; x509.Subject := x509.Subject c;
     x509.NotBefore := x509.NotBefore c; x509.NotAfter := x509.NotAfter c;
     x509.BasicConstraintsValid := x509.BasicConstraintsValid c;
     x509.IsCA := x509.IsCA c; x509.SubjectKeyId := x509.SubjectKeyId c;
     x509.AuthorityKeyId := v; x509.DNSNames := x509.DNSNames c |}.

End set.

(** ** Package pki *)

Module pki.

Record AuraeCA : Type := {
  Certificate : string;
  Key : string
}.

(** [AuraeCA{}] and [x509.Certificate{}], the zero values. *)
Definition zero_AuraeCA : AuraeCA := {| Certificate := ""; Key := "" |}.

Definition zero_Certificate : x509.Certificate :=
  {| x509.SerialNumber := None;
     x509.Subject :=
       {| pkix.Country := []; pkix.Organization := [];
          pkix.OrganizationalUnit := []; pkix.Locality := [];
          pkix.Province := []; pkix.StreetAddress := [];
          pkix.PostalCode := []; pkix.SerialNumber := "";
          pkix.CommonName := "" |};
     x509.NotBefore := 0; x509.NotAfter := 0;
     x509.BasicConstraintsValid := false; x509.IsCA := false;
     x509.SubjectKeyId := []; x509.AuthorityKeyId := [];
     x509.DNSNames := [] |}.

(** What a call can read and change outside its arguments. *)
Record World (Entropy FS : Type) : Type := {
  rand_Reader : Entropy;
  clock : time.Time;
  disk : FS
}.
Arguments rand_Reader {Entropy FS} w.
Arguments clock {Entropy FS} w.
Arguments disk {Entropy FS} w.

Section WithLib.
Context {Entropy FS File : Type} {L : GoLib Entropy FS File}.

Definition with_rand (w : World Entropy FS) (r : Entropy) : World Entropy FS :=
  {| rand_Reader := r; clock := clock w; disk := disk w |}.

Definition with_disk (w : World Entropy FS) (fs : FS) : World Entropy FS :=
  {| rand_Reader := rand_Reader w; clock := clock w; disk := fs |}.

(** [time.Now()] *)
Definition time_Now (w : World Entropy FS) : time.Time := clock w.

(** A [bytes.Buffer] is its contents; [buf.String()] is the conversion of
    the contents to a string. *)
Definition Buffer_String (buf : bytes) : string := string_of_list_byte buf.

Definition getCertBuf (derBytes : bytes) : bytes * option error :=
  let certBytes : bytes := [] in
  let certBuf := certBytes in
  let '(err, certBuf) :=
    pem_Encode certBuf
      {| pem.Type_ := "CERTIFICATE"; pem.Headers := [];
         pem.Bytes := derBytes |} in
  match err with
  | Some err => ([], Some (Errorf "failed to write certificate buffer: " err))
  | None => (certBuf, None)
  end.

Definition getKeyBuf (priv : rsa.PrivateKey) : bytes * option error :=
  let keyBytes : bytes := [] in
  let keyBuf := keyBytes in
  let '(err, keyBuf) :=
    pem_Encode keyBuf
      {| pem.Type_ := "RSA PRIVATE KEY"; pem.Headers := [];
         pem.Bytes := x509_MarshalPKCS1PrivateKey priv |} in
  match err with
  | Some err => ([], Some (Errorf "failed to write private key buffer: " err))
  | None => (keyBuf, None)
  end.

(** The deferred [f.Close()] runs when the function returns after a
    successful open, on both paths; what it returns is dropped. *)
Definition writeStringToFile (p s : string) (fs : FS) : option error * FS :=
  let '(r, fs) :=
    os_OpenFile p (Z.lor (Z.lor os.O_WRONLY os.O_CREATE) os.O_TRUNC) 0x180 fs in
  match r with
  | Err err => (Some (Errorf ("failed to open file " ++ p ++ ": ") err), fs)
  | Ok f =>
      let '((_, err), fs) := File_WriteString f s fs in
      match err with
      | Some err =>
          let '(_, fs) := File_Close f fs in
          (Some (Errorf ("failed to write file " ++ p ++ ": ") err), fs)
      | None =>
          let '(_, fs) := File_Close f fs in
          (None, fs)
      end
  end.

Definition createCAFiles (path : string) (ca : AuraeCA) (fs : FS)
  : option error * FS :=
  let path := filepath_Clean path in
  let '(err, fs) := os_MkdirAll path os.ModePerm fs in
  match err with
  | Some err => (Some (Errorf "failed to create output directory: " err), fs)
  | None =>
      let crtPath := filepath_Join path "ca.crt" in
      let keyPath := filepath_Join path "ca.key" in
      let '(err, fs) := writeStringToFile crtPath (Certificate ca) fs in
      match err with
      | Some err => (Some err, fs)
      | None =>
          let '(err, fs) := writeStringToFile keyPath (Key ca) fs in
          match err with
          | Some err => (Some err, fs)
          | None => (None, fs)
          end
      end
  end.

Definition serialNumberLimit : Z := big.Lsh 1 128.

Definition CreateAuraeRootCA (path domainName : string) (w : World Entropy FS)
  : (ptr AuraeCA * option error) * World Entropy FS :=
  let '(r, rnd) := rsa_GenerateKey (rand_Reader w) 2048 in
  let w := with_rand w rnd in
  match r with
  | Err err =>
      ((Some zero_AuraeCA,
        Some (Errorf "failed to generate private key: " err)), w)
  | Ok priv =>
      let template := zero_Certificate in
      let template :=
        set.Subject template
          {| pkix.Country := ["IS"];
             pkix.Organization := ["Aurae"];
             pkix.OrganizationalUnit := ["Runtime"];
             pkix.Locality := ["aurae"];
             pkix.Province := [];
             pkix.StreetAddress := ["aurae"];
             pkix.PostalCode := [];
             pkix.SerialNumber := "";
             pkix.CommonName := domainName |} in
      let template := set.NotBefore template (time_Now w) in
      let template :=
        set.NotAfter template
          (time.Add (x509.NotBefore template) (24 * time.Hour * 9999)) in
      let template := set.IsCA template true in
      let template := set.BasicConstraintsValid template true in
      let template := set.DNSNames template [domainName] in
      let '(r, rnd) := rand_Int (rand_Reader w) serialNumberLimit in
      let w := with_rand w rnd in
      let template := set.SerialNumber template (value r) in
      match r with
      | Err err =>
          ((Some zero_AuraeCA,
            Some (Errorf "failed to generate serial number: " err)), w)
      | Ok _ =>
          let pubHash := sha1_Sum (big.Bytes (rsa.N (rsa.Public priv))) in
          let template := set.SubjectKeyId template pubHash in
          let template :=
            set.AuthorityKeyId template (x509.SubjectKeyId template) in
          let '(r, rnd) :=
            x509_CreateCertificate (rand_Reader w) template template
              (rsa.Public priv) priv in
          let w := with_rand w rnd in
          match r with
          | Err err =>
              ((Some zero_AuraeCA,
                Some (Errorf "failed to create certificate: " err)), w)
          | Ok derBytes =>
              let '(certBuf, err) := getCertBuf derBytes in
              match err with
              | Some err => ((Some zero_AuraeCA, Some err), w)
              | None =>
                  let '(keyBuf, err) := getKeyBuf priv in
                  match err with
                  | Some err => ((Some zero_AuraeCA, Some err), w)
                  | None =>
                      let ca :=
                        {| Certificate := Buffer_String certBuf;
                           Key := Buffer_String keyBuf |} in
                      if negb (String.eqb path "") then
                        let '(err, fs) := createCAFiles path ca (disk w) in
                        let w := with_disk w fs in
                        match err with
                        | Some err => ((Some ca, Some err), w)
                        | None => ((Some ca, None), w)
                        end
                      else ((Some ca, None), w)
                  end
              end
          end
      end
  end.

End WithLib.

End pki.

Import pki.

(** ** What a run issues *)

Section Issuance.
Context {Entropy FS File : Type} {L : GoLib Entropy FS File}.

(** The values a run goes through: the generated key, the serial number
    drawn, the template handed to [x509.CreateCertificate], the DER bytes it
    returned, and the two filled buffers. *)
Record Issue : Type := {
  priv : rsa.PrivateKey;
  serial : Z;
  template : x509.Certificate;
  derBytes : bytes;
  certBuf : bytes;
  keyBuf : bytes
}.

(** [signed w i]: started in [w], the library generated [priv i] as a
    2048-bit key, then drew [serial i] below [2^128], and then
    [x509.CreateCertificate], given [template i] as both template and
    parent, the public half of [priv i] and [priv i] itself, returned
    [derBytes i].  The certificate of the run is the one this call made, and
    its fields are those of [template i]. *)
Definition signed (w : World Entropy FS) (i : Issue) : Prop :=
  exists r1 r2 r3 : Entropy,
    rsa_GenerateKey (rand_Reader w) 2048 = (Ok (priv i), r1) /\
    rand_Int r1 (2 ^ 128) = (Ok (serial i), r2) /\
    x509_CreateCertificate r2 (template i) (template i)
      (rsa.Public (priv i)) (priv i) = (Ok (derBytes i), r3).

(** [encoded i]: [pem.Encode] wrote the block [CERTIFICATE] holding the DER
    bytes into an empty buffer, which became [certBuf i], and the block
    [RSA PRIVATE KEY] holding the PKCS#1 form of the key into another empty
    buffer, which became [keyBuf i]. *)
Definition encoded (i : Issue) : Prop :=
  pem_Encode []
    {| pem.Type_ := "CERTIFICATE"; pem.Headers := [];
       pem.Bytes := derBytes i |} = (None, certBuf i) /\
  pem_Encode []
    {| pem.Type_ := "RSA PRIVATE KEY"; pem.Headers := [];
       pem.Bytes := x509_MarshalPKCS1PrivateKey (priv i) |} = (None, keyBuf i).

(** The bundle made of the two buffers. *)
Definition bundle (i : Issue) : AuraeCA :=
  {| Certificate := Buffer_String (certBuf i);
     Key := Buffer_String (keyBuf i) |}.

(** [issued w ca i]: the run from [w] went through [i] and [ca] is its
    bundle. *)
Definition issued (w : World Entropy FS) (ca : AuraeCA) (i : Issue) : Prop :=
  signed w i /\ encoded i /\ ca = bundle i.

(** The template the body of [CreateAuraeRootCA] has built when it calls
    [x509.CreateCertificate], in closed form. *)
Definition built (domainName : string) (now : time.Time) (n : Z)
    (k : rsa.PrivateKey) : x509.Certificate :=
  {| x509.SerialNumber := Some n;
     x509.Subject :=
       {| pkix.Country := ["IS"]; pkix.Organization := ["Aurae"];
          pkix.OrganizationalUnit := ["Runtime"]; pkix.Locality := ["aurae"];
          pkix.Province := []; pkix.StreetAddress := ["aurae"];
          pkix.PostalCode := []; pkix.SerialNumber := "";
          pkix.CommonName := domainName |};
     x509.NotBefore := now;
     x509.NotAfter := now + 24 * time.Hour * 9999;
     x509.BasicConstraintsValid := true;
     x509.IsCA := true;
     x509.SubjectKeyId := sha1_Sum (big.Bytes (rsa.N (rsa.Public k)));
     x509.AuthorityKeyId := sha1_Sum (big.Bytes (rsa.N (rsa.Public k)));
     x509.DNSNames := [domainName] |}.

(** The failures of a run before anything is persisted, by the step that
    failed, with the error the run returns for each. *)
Inductive aborted (w : World Entropy FS) (domainName : string)
  : error -> Prop :=
| abort_key (c : error) (r1 : Entropy) :
    rsa_GenerateKey (rand_Reader w) 2048 = (Err c, r1) ->
    aborted w domainName (Errorf "failed to generate private key: " c)
| abort_serial (k : rsa.PrivateKey) (c : error) (r1 r2 : Entropy) :
    rsa_GenerateKey (rand_Reader w) 2048 = (Ok k, r1) ->
    rand_Int r1 (2 ^ 128) = (Err c, r2) ->
    aborted w domainName (Errorf "failed to generate serial number: " c)
| abort_create (k : rsa.PrivateKey) (n : Z) (c : error) (r1 r2 r3 : Entropy) :
    rsa_GenerateKey (rand_Reader w) 2048 = (Ok k, r1) ->
    rand_Int r1 (2 ^ 128) = (Ok n, r2) ->
    x509_CreateCertificate r2 (built domainName (time_Now w) n k)
      (built domainName (time_Now w) n k) (rsa.Public k) k = (Err c, r3) ->
    aborted w domainName (Errorf "failed to create certificate: " c)
| abort_cert_text (k : rsa.PrivateKey) (n : Z) (der : bytes) (c : error)
    (r1 r2 r3 : Entropy) (b : bytes) :
    rsa_GenerateKey (rand_Reader w) 2048 = (Ok k, r1) ->
    rand_Int r1 (2 ^ 128) = (Ok n, r2) ->
    x509_CreateCertificate r2 (built domainName (time_Now w) n k)
      (built domainName (time_Now w) n k) (rsa.Public k) k = (Ok der, r3) ->
    pem_Encode []
      {| pem.Type_ := "CERTIFICATE"; pem.Headers := []; pem.Bytes := der |}
      = (Some c, b) ->
    aborted w domainName (Errorf "failed to write certificate buffer: " c)
| abort_key_text (k : rsa.PrivateKey) (n : Z) (der : bytes) (c : error)
    (r1 r2 r3 : Entropy) (b b' : bytes) :
    rsa_GenerateKey (rand_Reader w) 2048 = (Ok k, r1) ->
    rand_Int r1 (2 ^ 128) = (Ok n, r2) ->
    x509_CreateCertificate r2 (built domainName (time_Now w) n k)
      (built domainName (time_Now w) n k) (rsa.Public k) k = (Ok der, r3) ->
    pem_Encode []
      {| pem.Type_ := "CERTIFICATE"; pem.Headers := []; pem.Bytes := der |}
      = (None, b) ->
    pem_Encode []
      {| pem.Type_ := "RSA PRIVATE KEY"; pem.Headers := [];
         pem.Bytes := x509_MarshalPKCS1PrivateKey k |} = (Some c, b') ->
    aborted w domainName (Errorf "failed to write private key buffer: " c).

(** The two ways a run ends: it aborts before the bundle exists, returning
    the zero bundle, an error and an untouched disk; or it computes the
    bundle, and then returns it with whatever [createCAFiles] returned, or
    with no error and an untouched disk when the path is empty. *)
Inductive ending (path domainName : string) (w : World Entropy FS)
  : (ptr AuraeCA * option error) * World Entropy FS -> Prop :=
| ends_aborted (e : error) (w' : World Entropy FS) :
    aborted w domainName e ->
    disk w' = disk w ->
    clock w' = clock w ->
    ending path domainName w ((Some zero_AuraeCA, Some e), w')
| ends_unsaved (i : Issue) (r1 r2 r3 : Entropy) :
    path = "" ->
    rsa_GenerateKey (rand_Reader w) 2048 = (Ok (priv i), r1) ->
    rand_Int r1 (2 ^ 128) = (Ok (serial i), r2) ->
    template i = built domainName (time_Now w) (serial i) (priv i) ->
    x509_CreateCertificate r2 (template i) (template i)
      (rsa.Public (priv i)) (priv i) = (Ok (derBytes i), r3) ->
    encoded i ->
    ending path domainName w
      ((Some (bundle i), None), with_rand w r3)
| ends_saving (i : Issue) (r1 r2 r3 : Entropy) (err : option error) (fs : FS) :
    path <> "" ->
    rsa_GenerateKey (rand_Reader w) 2048 = (Ok (priv i), r1) ->
    rand_Int r1 (2 ^ 128) = (Ok (serial i), r2) ->
    template i = built domainName (time_Now w) (serial i) (priv i) ->
    x509_CreateCertificate r2 (template i) (template i)
      (rsa.Public (priv i)) (priv i) = (Ok (derBytes i), r3) ->
    encoded i ->
    createCAFiles path (bundle i) (disk w) = (err, fs) ->
    ending path domainName w
      ((Some (bundle i), err), with_disk (with_rand w r3) fs).



End Issuance.

(** ** A reference library

    An executable instance of [GoLib], to run the package on concrete
    inputs.  [rand.Int], [sha1.Sum] and [pem.Encode] follow the algorithms of
    the Go standard library; key generation, certificate creation, PKCS#1
    marshalling, the path functions and the file system are small stand-ins
    with the same failure modes (they do no cryptography and write no
    ASN.1). *)

Module Reference.

Local Open Scope list_scope.

Definition z (b : byte) : Z := Z.of_N (Byte.to_N b).
Definition byte_of_Z (n : Z) : byte := big.byte_of_N (Z.to_N (n mod 256)).

(** Big-endian bytes of [n], [k] of them. *)
Fixpoint be (k : nat) (n : Z) : bytes :=
  match k with
  | O => []
  | S k' => byte_of_Z (Z.shiftr n (8 * Z.of_nat k')) :: be k' n
  end.

(** *** crypto/sha1 *)

Module sha1.

Definition w32 (x : Z) : Z := Z.land x 0xffffffff.

Definition rotl (n x : Z) : Z :=
  w32 (Z.lor (Z.shiftl x n) (Z.shiftr x (32 - n))).

Fixpoint words (l : bytes) : list Z :=
  match l with
  | b0 :: b1 :: b2 :: b3 :: r =>
      (((z b0 * 256 + z b1) * 256 + z b2) * 256 + z b3) :: words r
  | _ => []
  end.

Definition pad (m : bytes) : bytes :=
  let len := Z.of_nat (List.length m) in
  m ++ [x80] ++ repeat x00 (Z.to_nat ((55 - len) mod 64)) ++ be 8 (8 * len).

Fixpoint blocks (fuel : nat) (ws : list Z) : list (list Z) :=
  match fuel with
  | O => []
  | S fuel' =>
      match ws with
      | [] => []
      | _ => firstn 16 ws :: blocks fuel' (skipn 16 ws)
      end
  end.

(** The message schedule, most recent word first. *)
Fixpoint extend (k : nat) (rev : list Z) : list Z :=
  match k with
  | O => rev
  | S k' =>
      let x :=
        Z.lxor (Z.lxor (nth 2 rev 0) (nth 7 rev 0))
               (Z.lxor (nth 13 rev 0) (nth 15 rev 0)) in
      extend k' (rotl 1 x :: rev)
  end.

Definition state : Type := (Z * Z * Z * Z * Z)%type.

Definition round (st : state) (iw : nat * Z) : state :=
  let '(a, b, c, d, e) := st in
  let '(i, wi) := iw in
  let '(f, k) :=
    if Nat.ltb i 20 then
      (Z.lor (Z.land b c) (Z.ldiff d b), 0x5A827999)
    else if Nat.ltb i 40 then
      (Z.lxor (Z.lxor b c) d, 0x6ED9EBA1)
    else if Nat.ltb i 60 then
      (Z.lor (Z.lor (Z.land b c) (Z.land b d)) (Z.land c d), 0x8F1BBCDC)
    else
      (Z.lxor (Z.lxor b c) d, 0xCA62C1D6) in
  (w32 (rotl 5 a + f + e + k + wi), a, rotl 30 b, c, d).

Definition block (h : state) (ws : list Z) : state :=
  let sched := rev (extend 64 (rev ws)) in
  let '(a, b, c, d, e) := fold_left round (combine (seq 0 80) sched) h in
  let '(h0, h1, h2, h3, h4) := h in
  (w32 (h0 + a), w32 (h1 + b), w32 (h2 + c), w32 (h3 + d), w32 (h4 + e)).

Definition Sum (m : bytes) : bytes :=
  let ws := words (pad m) in
  let '(h0, h1, h2, h3, h4) :=
    fold_left block (blocks (List.length ws) ws)
      (0x67452301, 0xEFCDAB89, 0x98BADCFE, 0x10325476, 0xC3D2E1F0) in
  be 4 h0 ++ be 4 h1 ++ be 4 h2 ++ be 4 h3 ++ be 4 h4.

End sha1.

(** *** encoding/pem *)

Module pem_text.

Definition alphabet : bytes :=
  list_byte_of_string
    "ABCDEFGHIJKLMNOPQRSTUVWXYZabcdefghijklmnopqrstuvwxyz0123456789+/".

Definition digit (n : Z) : byte := nth (Z.to_nat (n mod 64)) alphabet x00.

Definition pad_char : byte := "=".

(** Standard base64 with padding. *)
Fixpoint base64 (l : bytes) : bytes :=
  match l with
  | [] => []
  | [a] =>
      let n := z a * 65536 in
      [digit (n / 262144); digit (n / 4096); pad_char; pad_char]
  | [a; b] =>
      let n := z a * 65536 + z b * 256 in
      [digit (n / 262144); digit (n / 4096); digit (n / 64); pad_char]
  | a :: b :: c :: r =>
      let n := z a * 65536 + z b * 256 + z c in
      digit (n / 262144) :: digit (n / 4096) :: digit (n / 64) :: digit n
        :: base64 r
  end.

Definition newline : byte := x0a.

(** Lines of at most 64 characters, each ended by a newline. *)
Fixpoint wrap (fuel : nat) (l : bytes) : bytes :=
  match fuel with
  | O => []
  | S fuel' =>
      match l with
      | [] => []
      | _ => firstn 64 l ++ [newline] ++ wrap fuel' (skipn 64 l)
      end
  end.

Definition marker (side type : string) : string :=
  ("-----" ++ side ++ " " ++ type ++ "-----")%string.

(** [pem.Encode(out, b)] on a buffer; a block with headers is refused by
    this instance, which has no use for them. *)
Definition Encode (out : bytes) (b : pem.Block) : option error * bytes :=
  match pem.Headers b with
  | _ :: _ => (Some (LibError "pem: headers are not supported"), out)
  | [] =>
      let body := base64 (pem.Bytes b) in
      (None,
       out ++ list_byte_of_string (marker "BEGIN" (pem.Type_ b))
           ++ [newline] ++ wrap (List.length body) body
           ++ list_byte_of_string (marker "END" (pem.Type_ b))
           ++ [newline])
  end.

End pem_text.

(** *** crypto/rand *)

Module rand.

(** The reader is the sequence of bytes it will deliver; reading past its
    end is the generator fault. *)
Definition EOF : error := LibError "unexpected EOF".

Definition mask_first (mask : Z) (buf : bytes) : bytes :=
  match buf with
  | [] => []
  | b0 :: t => byte_of_Z (Z.land (z b0) mask) :: t
  end.

(** The rejection loop of [rand.Int]: read [k] bytes, clear the excess bits
    of the first, keep the candidate when it is below [max]. *)
Fixpoint draw (fuel k : nat) (mask max : Z) (r : bytes) : result Z * bytes :=
  match fuel with
  | O => (Err EOF, r)
  | S fuel' =>
      if Nat.ltb (List.length r) k then (Err EOF, [])
      else
        let n := big.SetBytes (mask_first mask (firstn k r)) in
        if Z.ltb n max then (Ok n, skipn k r)
        else draw fuel' k mask max (skipn k r)
  end.

(** [rand.Int(reader, max)].  Go panics when [max <= 0]; here that is an
    error. *)
Definition Int (r : bytes) (max : Z) : result Z * bytes :=
  if Z.leb max 0 then (Err (LibError "crypto/rand: argument to Int is <= 0"), r)
  else
    let bitLen := if Z.eqb (max - 1) 0 then 0 else Z.log2 (max - 1) + 1 in
    if Z.eqb bitLen 0 then (Ok 0, r)
    else
      let k := (bitLen + 7) / 8 in
      let b := if Z.eqb (bitLen mod 8) 0 then 8 else bitLen mod 8 in
      draw (S (List.length r)) (Z.to_nat k) (2 ^ b - 1) max r.

End rand.

(** *** Stand-ins *)

Definition key_a : rsa.PrivateKey :=
  {| rsa.Public := {| rsa.N := 3233; rsa.E := 17 |};
     rsa.D := 2753; rsa.Primes := [61; 53] |}.

Definition key_b : rsa.PrivateKey :=
  {| rsa.Public := {| rsa.N := 8633; rsa.E := 5 |};
     rsa.D := 5069; rsa.Primes := [89; 97] |}.

(** Key generation: one byte of randomness picks one of two textbook keys,
    whatever the size asked for. *)
Definition GenerateKey (r : bytes) (bits : Z) : result rsa.PrivateKey * bytes :=
  match r with
  | [] => (Err rand.EOF, [])
  | b :: r' => (Ok (if Z.even (z b) then key_a else key_b), r')
  end.

Definition is_ascii (s : string) : bool :=
  forallb (fun b => Z.ltb (z b) 128) (list_byte_of_string s).

(** Certificate creation: refuses a template without serial number, a
    negative serial number and a DNS name that is not ASCII, as
    [x509.CreateCertificate] does; otherwise lists the fields, unsigned. *)
Definition CreateCertificate (r : bytes) (t parent : x509.Certificate)
    (pub : rsa.PublicKey) (k : rsa.PrivateKey) : result bytes * bytes :=
  match x509.SerialNumber t with
  | None => (Err (LibError "x509: no SerialNumber given"), r)
  | Some n =>
      if Z.ltb n 0 then
        (Err (LibError "x509: serial number must be positive"), r)
      else if negb (forallb is_ascii (x509.DNSNames t)) then
        (Err (LibError "x509: DNS name cannot be encoded as an IA5String"), r)
      else
        (Ok (big.Bytes n
             ++ list_byte_of_string (pkix.CommonName (x509.Subject parent))
             ++ list_byte_of_string (pkix.CommonName (x509.Subject t))
             ++ be 8 (time.Unix (x509.NotBefore t))
             ++ be 8 (time.Unix (x509.NotAfter t))
             ++ big.Bytes (rsa.N pub)
             ++ x509.SubjectKeyId t
             ++ x509.AuthorityKeyId t
             ++ List.concat (map list_byte_of_string (x509.DNSNames t))), r)
  end.

Definition MarshalPKCS1PrivateKey (k : rsa.PrivateKey) : bytes :=
  big.Bytes (rsa.N (rsa.Public k)) ++ big.Bytes (rsa.E (rsa.Public k))
    ++ big.Bytes (rsa.D k) ++ List.concat (map big.Bytes (rsa.Primes k)).

(** Paths: [Clean] drops one trailing separator, [Join] puts one between
    its arguments. *)
Definition Clean (p : string) : string :=
  match rev (list_byte_of_string p) with
  | "/"%byte :: (_ :: _) as t => string_of_list_byte (rev t)
  | _ => p
  end.

Definition Join (a b : string) : string := (a ++ "/" ++ b)%string.

(** The file system: directories, regular files with contents and mode,
    free space in bytes, and a journal of the calls made, most recent
    first. *)
Inductive call : Type :=
| MkdirAll (path : string) (perm : Z)
| OpenFile (name : string) (flag perm : Z)
| WriteString (name s : string)
| Close (name : string).

Record Disk : Type := {
  dirs : list string;
  files : list (string * (string * Z));
  free : Z;
  journal : list call
}.

Fixpoint lookup (name : string) (l : list (string * (string * Z)))
  : option (string * Z) :=
  match l with
  | [] => None
  | (n, v) :: l' => if String.eqb n name then Some v else lookup name l'
  end.

Fixpoint put (name : string) (v : string * Z) (l : list (string * (string * Z)))
  : list (string * (string * Z)) :=
  match l with
  | [] => [(name, v)]
  | (n, v') :: l' =>
      if String.eqb n name then (n, v) :: l' else (n, v') :: put name v l'
  end.

Definition is_dir (d : Disk) (p : string) : bool :=
  existsb (String.eqb p) (dirs d).

Definition logged (c : call) (d : Disk) : Disk :=
  {| dirs := dirs d; files := files d; free := free d;
     journal := c :: journal d |}.

Definition fs_MkdirAll (path : string) (perm : Z) (d : Disk)
  : option error * Disk :=
  let d := logged (MkdirAll path perm) d in
  match lookup path (files d) with
  | Some _ => (Some (LibError ("mkdir " ++ path ++ ": not a directory")), d)
  | None =>
      if is_dir d path then (None, d)
      else (None, {| dirs := path :: dirs d; files := files d;
                     free := free d; journal := journal d |})
  end.

Definition fs_OpenFile (name : string) (flag perm : Z) (d : Disk)
  : result string * Disk :=
  let d := logged (OpenFile name flag perm) d in
  if is_dir d name then
    (Err (LibError ("open " ++ name ++ ": is a directory")), d)
  else
    let mode :=
      match lookup name (files d) with
      | Some (_, m) => m
      | None => perm
      end in
    (Ok name, {| dirs := dirs d; files := put name (""%string, mode) (files d);
                 free := free d; journal := journal d |}).

Definition fs_WriteString (f s : string) (d : Disk)
  : (Z * option error) * Disk :=
  let d := logged (WriteString f s) d in
  let len := Z.of_nat (String.length s) in
  if Z.ltb (free d) len then
    ((0, Some (LibError ("write " ++ f ++ ": no space left on device"))), d)
  else
    match lookup f (files d) with
    | None =>
        ((0, Some (LibError ("write " ++ f ++ ": file already closed"))), d)
    | Some (old, m) =>
        ((len, None),
         {| dirs := dirs d; files := put f ((old ++ s)%string, m) (files d);
            free := free d - len; journal := journal d |})
    end.

Definition fs_Close (f : string) (d : Disk) : option error * Disk :=
  (None, logged (Close f) d).

#[export] Instance lib : GoLib bytes Disk string :=
  {| rsa_GenerateKey := GenerateKey;
     rand_Int := rand.Int;
     sha1_Sum := sha1.Sum;
     x509_CreateCertificate := CreateCertificate;
     x509_MarshalPKCS1PrivateKey := MarshalPKCS1PrivateKey;
     pem_Encode := pem_text.Encode;
     filepath_Clean := Clean;
     filepath_Join := Join;
     os_MkdirAll := fs_MkdirAll;
     os_OpenFile := fs_OpenFile;
     File_WriteString := fs_WriteString;
     File_Close := fs_Close |}.

End Reference.

(** ** Runs on the reference library *)

Import Reference.

Definition world (r : bytes) (now : time.Time) (d : Disk)
  : World bytes Disk :=
  {| rand_Reader := r; clock := now; disk := d |}.

(** Randomness for the examples. *)
Definition stream (n : nat) : bytes :=
  map (fun i => byte_of_Z (Z.of_nat (37 * i + 11))) (seq 0 n).

Definition empty_disk : Disk :=
  {| dirs := []; files := []; free := 4096; journal := [] |}.

(** A regular file sits where the output directory should go. *)
Definition blocked_disk : Disk :=
  {| dirs := []; files := [("/tmp/testdir", ("x", 0x1a4))]; free := 4096;
     journal := [] |}.

(** Room for the certificate file, not for the key file after it. *)
Definition small_disk : Disk :=
  {| dirs := ["/tmp/testdir"]; files := []; free := 256; journal := [] |}.

(** 2022-11-02 00:00:00.123456789 UTC *)
Definition now0 : time.Time := 1667347200123456789.

Definition w0 : World bytes Disk := world (stream 40) now0 empty_disk.
Definition w_blocked : World bytes Disk := world (stream 40) now0 blocked_disk.
Definition w_small : World bytes Disk := world (stream 40) now0 small_disk.

(** One byte for the key, too few left for a serial number. *)
Definition w_dry : World bytes Disk := world (stream 10) now0 empty_disk.

Definition the_bundle (out : (ptr AuraeCA * option error) * World bytes Disk)
  : AuraeCA :=
  match fst (fst out) with
  | Some ca => ca
  | None => zero_AuraeCA
  end.

Definition ca0 : AuraeCA :=
  Eval vm_compute in
    the_bundle (CreateAuraeRootCA (L:=lib) "" "example.aurae.io" w0).

Definition ca_blank : AuraeCA :=
  Eval vm_compute in the_bundle (CreateAuraeRootCA (L:=lib) "" "" w0).

Definition w0' : World bytes Disk :=
  Eval vm_compute in snd (CreateAuraeRootCA (L:=lib) "" "example.aurae.io" w0).

Definition w0_saved : World bytes Disk :=
  Eval vm_compute in
    snd (CreateAuraeRootCA (L:=lib) "/tmp/testdir/" "example.aurae.io" w0).

(** ** The calls made on the file system *)

(** A call on the file system with its arguments, and for [os.OpenFile] the
    handle it returned, nil when it failed. *)
Inductive fs_call (File : Type) : Type :=
| call_MkdirAll (path : string) (perm : os.FileMode)
| call_OpenFile (name : string) (flag : Z) (perm : os.FileMode)
    (opened : ptr File)
| call_WriteString (f : File) (s : string)
| call_Close (f : File).
Arguments call_MkdirAll {File} path perm.
Arguments call_OpenFile {File} name flag perm opened.
Arguments call_WriteString {File} f s.
Arguments call_Close {File} f.

(** [traced L] is the library [L] on a file system that also keeps, oldest
    first, the calls made on it.  Each call does what it does in [L]; the
    package's functions run on [traced L] unchanged. *)
Definition traced {Entropy FS File : Type} (L : GoLib Entropy FS File)
  : GoLib Entropy (FS * list (fs_call File)) File :=
  {| rsa_GenerateKey := @rsa_GenerateKey _ _ _ L;
     rand_Int := @rand_Int _ _ _ L;
     sha1_Sum := @sha1_Sum _ _ _ L;
     x509_CreateCertificate := @x509_CreateCertificate _ _ _ L;
     x509_MarshalPKCS1PrivateKey := @x509_MarshalPKCS1PrivateKey _ _ _ L;
     pem_Encode := @pem_Encode _ _ _ L;
     filepath_Clean := @filepath_Clean _ _ _ L;
     filepath_Join := @filepath_Join _ _ _ L;
     os_MkdirAll := fun path perm st =>
       let '(err, fs) := @os_MkdirAll _ _ _ L path perm (fst st) in
       (err, (fs, (snd st ++ [call_MkdirAll path perm])%list));
     os_OpenFile := fun name flag perm st =>
       let '(r, fs) := @os_OpenFile _ _ _ L name flag perm (fst st) in
       (r, (fs, (snd st ++ [call_OpenFile name flag perm (value r)])%list));
     File_WriteString := fun f s st =>
       let '(r, fs) := @File_WriteString _ _ _ L f s (fst st) in
       (r, (fs, (snd st ++ [call_WriteString f s])%list));
     File_Close := fun f st =>
       let '(err, fs) := @File_Close _ _ _ L f (fst st) in
       (err, (fs, (snd st ++ [call_Close f])%list)) |}.

(** The world without the record of calls. *)
Definition erase {Entropy FS File : Type}
    (w : World Entropy (FS * list (fs_call File))) : World Entropy FS :=
  {| rand_Reader := rand_Reader w; clock := clock w; disk := fst (disk w) |}.

Section Protocol.
Context {Entropy FS File : Type} {L : GoLib Entropy FS File}.

(** The calls of one [writeStringToFile p s], by what it returns: a failed
    open alone; or an open, one write of [s] to the handle opened and one
    close of that handle. *)
Inductive written (p s : string)
  : option error -> list (fs_call File) -> Prop :=
| written_not_opened (c : error) :
    written p s (Some (Errorf ("failed to open file " ++ p ++ ": ") c))
      [call_OpenFile p 0x241 0x180 None]
| written_short (f : File) (c : error) :
    written p s (Some (Errorf ("failed to write file " ++ p ++ ": ") c))
      [call_OpenFile p 0x241 0x180 (Some f); call_WriteString f s;
       call_Close f]
| written_whole (f : File) :
    written p s None
      [call_OpenFile p 0x241 0x180 (Some f); call_WriteString f s;
       call_Close f].

(** The calls of one [createCAFiles path ca], by what it returns: the
    directory first; then the certificate file; then, only when that one
    was written whole, the key file. *)
Inductive persisted (path : string) (ca : AuraeCA)
  : option error -> list (fs_call File) -> Prop :=
| persisted_no_directory (c : error) :
    persisted path ca
      (Some (Errorf "failed to create output directory: " c))
      [call_MkdirAll (filepath_Clean path) 0x1ff]
| persisted_no_certificate (e : error) (calls : list (fs_call File)) :
    written (filepath_Join (filepath_Clean path) "ca.crt") (Certificate ca)
      (Some e) calls ->
    persisted path ca (Some e)
      (call_MkdirAll (filepath_Clean path) 0x1ff :: calls)
| persisted_certificate (err : option error)
    (calls calls' : list (fs_call File)) :
    written (filepath_Join (filepath_Clean path) "ca.crt") (Certificate ca)
      None calls ->
    written (filepath_Join (filepath_Clean path) "ca.key") (Key ca)
      err calls' ->
    persisted path ca err
      (call_MkdirAll (filepath_Clean path) 0x1ff :: calls ++ calls')%list.

End Protocol.

(** The reference library with a file system on which every close fails. *)
Definition lib_close_fails : GoLib bytes Disk string :=
  {| rsa_GenerateKey := GenerateKey;
     rand_Int := rand.Int;
     sha1_Sum := sha1.Sum;
     x509_CreateCertificate := CreateCertificate;
     x509_MarshalPKCS1PrivateKey := MarshalPKCS1PrivateKey;
     pem_Encode := pem_text.Encode;
     filepath_Clean := Clean;
     filepath_Join := Join;
     os_MkdirAll := fs_MkdirAll;
     os_OpenFile := fs_OpenFile;
     File_WriteString := fs_WriteString;
     File_Close := fun f d =>
       (Some (LibError ("close " ++ f ++ ": input/output error")),
        logged (Close f) d) |}.

(** The worlds of the runs, with an empty record of calls. *)
Definition untraced (w : World bytes Disk)
  : World bytes (Disk * list (fs_call string)) :=
  {| rand_Reader := rand_Reader w; clock := clock w; disk := (disk w, []) |}.

(** The serial number and the certificate bytes of the run from [w0] for
    [example.aurae.io], and its two texts as bytes. *)
Definition n0 : Z :=
  Eval vm_compute in
    match fst (rand.Int (skipn 1 (stream 40)) (2 ^ 128)) with
    | Ok n => n
    | Err _ => 0
    end.

Definition der0 : bytes :=
  Eval vm_compute in
    match
      fst (CreateCertificate (skipn 17 (stream 40))
             (built (L:=lib) "example.aurae.io" now0 n0 key_b)
             (built (L:=lib) "example.aurae.io" now0 n0 key_b)
             (rsa.Public key_b) key_b)
    with
    | Ok der => der
    | Err _ => []
    end.

Definition cb0 : bytes := list_byte_of_string (Certificate ca0).
Definition kb0 : bytes := list_byte_of_string (Key ca0).

(** A name that is no host name, and a name that is not ASCII: [bucher.de]
    with u-umlaut, in UTF-8. *)
Definition odd_name : string := "not a host name".

Definition umlaut_name : string :=
  string_of_list_byte [x62; xc3; xbc; x63; x68; x65; x72; x2e; x64; x65].

Definition ca_odd : AuraeCA :=
  Eval vm_compute in the_bundle (CreateAuraeRootCA (L:=lib) "" odd_name w0).


(** * Theorems *)

(** ** Big-endian bytes *)

Lemma to_N_byte_of_N (n : N) :
  (n < 256)%N -> Byte.to_N (big.byte_of_N n) = n.
Proof.
  intros H. unfold big.byte_of_N.
  destruct (Byte.of_N n) as [b|] eqn:E.
  - apply Byte.to_of_N. exact E.
  - apply Byte.of_N_None_iff in E. lia.
Qed.

Lemma SetBytes_from (l : bytes) (a : Z) :
  fold_left (fun acc d => 256 * acc + Z.of_N (Byte.to_N d)) l a
  = a * 256 ^ Z.of_nat (List.length l) + big.SetBytes l.
Proof.
  unfold big.SetBytes. revert a.
  induction l as [|d l IH]; intros a; cbn [fold_left List.length].
  - cbn. lia.
  - rewrite IH, (IH (256 * 0 + _)).
    rewrite Nat2Z.inj_succ, Z.pow_succ_r by lia. ring.
Qed.

Lemma SetBytes_cons (d : byte) (l : bytes) :
  big.SetBytes (d :: l)
  = Z.of_N (Byte.to_N d) * 256 ^ Z.of_nat (List.length l) + big.SetBytes l.
Proof.
  unfold big.SetBytes at 1. cbn [fold_left]. rewrite SetBytes_from. ring.
Qed.

Lemma be_digits_value (fuel : nat) (n : N) (acc : bytes) :
  Z.of_N n < 2 ^ Z.of_nat fuel ->
  big.SetBytes (big.be_digits fuel n acc)
  = Z.of_N n * 256 ^ Z.of_nat (List.length acc) + big.SetBytes acc.
Proof.
  revert n acc. induction fuel as [|fuel IH]; intros n acc Hn;
    cbn [big.be_digits].
  - cbn in Hn. replace (Z.of_N n) with 0 by lia. lia.
  - destruct (N.eqb_spec n 0) as [->|Hz]; [cbn; lia|].
    rewrite IH.
    + rewrite SetBytes_cons, to_N_byte_of_N
        by (apply N.mod_lt; discriminate).
      cbn [List.length]. rewrite Nat2Z.inj_succ, Z.pow_succ_r by lia.
      rewrite N2Z.inj_div, N2Z.inj_mod. cbn [Z.of_N].
      pose proof (Z.div_mod (Z.of_N n) 256 ltac:(lia)) as Hdm.
      set (q := Z.of_N n / 256) in *. set (m := Z.of_N n mod 256) in *.
      clearbody q m. rewrite Hdm. ring.
    + rewrite N2Z.inj_div. cbn [Z.of_N].
      rewrite Nat2Z.inj_succ, Z.pow_succ_r in Hn by lia.
      apply Z.div_lt_upper_bound; lia.
Qed.

(** [Bytes] is big-endian: read back most significant byte first, the slice
    denotes the absolute value. *)
Lemma SetBytes_Bytes (x : Z) : big.SetBytes (big.Bytes x) = Z.abs x.
Proof.
  unfold big.Bytes. rewrite be_digits_value.
  - cbn [List.length big.SetBytes fold_left]. rewrite N2Z.inj_abs_N. cbn. lia.
  - rewrite N_nat_Z.
    pose proof (N.size_gt (Z.abs_N x)) as H.
    apply N2Z.inj_lt in H. rewrite N2Z.inj_pow in H. exact H.
Qed.

Lemma SetBytes_bound (l : bytes) :
  0 <= big.SetBytes l < 256 ^ Z.of_nat (List.length l).
Proof.
  induction l as [|d l IH].
  - cbn. lia.
  - rewrite SetBytes_cons. cbn [List.length].
    rewrite Nat2Z.inj_succ, Z.pow_succ_r by lia.
    pose proof (Byte.to_N_bounded d) as Hd.
    assert (0 <= Z.of_N (Byte.to_N d) <= 255) by lia.
    nia.
Qed.

Lemma to_N_inj (a b : byte) : Byte.to_N a = Byte.to_N b -> a = b.
Proof.
  intros H. pose proof (Byte.of_to_N a) as Ha. rewrite H, Byte.of_to_N in Ha.
  congruence.
Qed.

Lemma SetBytes_inj (l l' : bytes) :
  List.length l = List.length l' -> big.SetBytes l = big.SetBytes l' -> l = l'.
Proof.
  revert l'. induction l as [|d l IH]; intros [|d' l'] Hlen;
    try discriminate; [reflexivity|].
  injection Hlen as Hlen. rewrite !SetBytes_cons, <- Hlen. intros H.
  pose proof (SetBytes_bound l) as Hb. pose proof (SetBytes_bound l') as Hb'.
  rewrite <- Hlen in Hb'.
  set (P := 256 ^ Z.of_nat (List.length l)) in *.
  assert (Hd : Z.of_N (Byte.to_N d) = Z.of_N (Byte.to_N d')) by nia.
  f_equal.
  - apply to_N_inj, N2Z.inj, Hd.
  - apply IH; [exact Hlen | nia].
Qed.

(** ** How a run ends *)

Section Runs.
Context {Entropy FS File : Type} {L : GoLib Entropy FS File}.

Lemma two_pow_128 : serialNumberLimit = 2 ^ 128.
Proof. reflexivity. Qed.

Lemma getCertBuf_cases (der : bytes) :
  (exists c b,
      pem_Encode []
        {| pem.Type_ := "CERTIFICATE"; pem.Headers := []; pem.Bytes := der |}
        = (Some c, b) /\
      getCertBuf der
        = ([], Some (Errorf "failed to write certificate buffer: " c))) \/
  (exists b,
      pem_Encode []
        {| pem.Type_ := "CERTIFICATE"; pem.Headers := []; pem.Bytes := der |}
        = (None, b) /\
      getCertBuf der = (b, None)).
Proof.
  unfold getCertBuf.
  destruct (pem_Encode [] _) as [[c|] b] eqn:E; [left|right]; eauto.
Qed.

Lemma getKeyBuf_cases (k : rsa.PrivateKey) :
  (exists c b,
      pem_Encode []
        {| pem.Type_ := "RSA PRIVATE KEY"; pem.Headers := [];
           pem.Bytes := x509_MarshalPKCS1PrivateKey k |} = (Some c, b) /\
      getKeyBuf k
        = ([], Some (Errorf "failed to write private key buffer: " c))) \/
  (exists b,
      pem_Encode []
        {| pem.Type_ := "RSA PRIVATE KEY"; pem.Headers := [];
           pem.Bytes := x509_MarshalPKCS1PrivateKey k |} = (None, b) /\
      getKeyBuf k = (b, None)).
Proof.
  unfold getKeyBuf.
  destruct (pem_Encode [] _) as [[c|] b] eqn:E; [left|right]; eauto.
Qed.

Lemma with_rand_twice (w : World Entropy FS) (r r' : Entropy) :
  with_rand (with_rand w r) r' = with_rand w r'.
Proof. reflexivity. Qed.

Lemma CreateAuraeRootCA_ending (path domainName : string)
    (w : World Entropy FS) :
  ending path domainName w (CreateAuraeRootCA path domainName w).
Proof.
  unfold CreateAuraeRootCA.
  destruct (rsa_GenerateKey (rand_Reader w) 2048) as [[k|c] r1] eqn:Ekey.
  2:{ apply ends_aborted; [eapply abort_key; eauto | reflexivity..]. }
  cbn [with_rand rand_Reader].
  rewrite two_pow_128.
  destruct (rand_Int r1 (2 ^ 128)) as [[n|c] r2] eqn:Eser.
  2:{ apply ends_aborted; [eapply abort_serial; eauto | reflexivity..]. }
  cbn [value].
  match goal with
  | |- context [x509_CreateCertificate _ ?t _ _ _] =>
      change t with (built domainName (time_Now w) n k)
  end.
  destruct (x509_CreateCertificate r2 _ _ _ _) as [[der|c] r3] eqn:Ecrt.
  2:{ apply ends_aborted; [eapply abort_create; eauto | reflexivity..]. }
  destruct (getCertBuf_cases der) as [(c & b & Ec & ->)|(b & Ec & ->)].
  { apply ends_aborted; [eapply abort_cert_text; eauto | reflexivity..]. }
  destruct (getKeyBuf_cases k) as [(c & b' & Ek & ->)|(b' & Ek & ->)].
  { apply ends_aborted; [eapply abort_key_text; eauto | reflexivity..]. }
  set (i := {| priv := k; serial := n;
               template := built domainName (time_Now w) n k;
               derBytes := der; certBuf := b; keyBuf := b' |}).
  change {| Certificate := Buffer_String b; Key := Buffer_String b' |}
    with (bundle i).
  destruct (String.eqb_spec path "") as [Hp|Hp]; cbn [negb].
  - apply (ends_unsaved path domainName w i r1 r2 r3); auto.
    split; assumption.
  - cbn [disk with_rand].
    destruct (createCAFiles path (bundle i) (disk w)) as [err fs] eqn:Efs.
    assert (Hend : ending path domainName w
              ((Some (bundle i), err), with_disk (with_rand w r3) fs)).
    { apply (ends_saving path domainName w i r1 r2 r3); auto.
      split; assumption. }
    destruct err; exact Hend.
Qed.




(** What a run returns once every library step before persistence has
    succeeded. *)
Lemma computed_outcome (path domainName : string) (w : World Entropy FS)
    (i : Issue) (r1 r2 r3 : Entropy) :
  rsa_GenerateKey (rand_Reader w) 2048 = (Ok (priv i), r1) ->
  rand_Int r1 (2 ^ 128) = (Ok (serial i), r2) ->
  template i = built domainName (time_Now w) (serial i) (priv i) ->
  x509_CreateCertificate r2 (template i) (template i)
    (rsa.Public (priv i)) (priv i) = (Ok (derBytes i), r3) ->
  encoded i ->
  CreateAuraeRootCA path domainName w
  = if String.eqb path "" then ((Some (bundle i), None), with_rand w r3)
    else ((Some (bundle i), fst (createCAFiles path (bundle i) (disk w))),
          with_disk (with_rand w r3)
            (snd (createCAFiles path (bundle i) (disk w)))).
Proof.
  intros Hk Hs Ht Hc [Hcb Hkb]. unfold CreateAuraeRootCA.
  rewrite Hk. cbn [with_rand rand_Reader]. rewrite two_pow_128, Hs.
  cbn [value].
  match goal with
  | |- context [x509_CreateCertificate _ ?t _ _ _] =>
      change t with (built domainName (time_Now w) (serial i) (priv i))
  end.
  rewrite <- Ht, Hc. unfold getCertBuf, getKeyBuf. rewrite Hcb, Hkb.
  change {| Certificate := Buffer_String (certBuf i);
            Key := Buffer_String (keyBuf i) |} with (bundle i).
  destruct (String.eqb path ""); cbn [negb]; [reflexivity|].
  cbn [disk with_rand].
  destruct (createCAFiles path (bundle i) (disk w)) as [[e|] fs];
    reflexivity.
Qed.

(** What a run returns when a step before persistence fails. *)
Lemma aborted_outcome (path domainName : string) (w : World Entropy FS)
    (e : error) :
  aborted w domainName e ->
  exists w',
    CreateAuraeRootCA path domainName w = ((Some zero_AuraeCA, Some e), w') /\
    disk w' = disk w.
Proof.
  intros Ha. unfold CreateAuraeRootCA.
  destruct Ha as [ c r1 Hk
                 | k c r1 r2 Hk Hs
                 | k n c r1 r2 r3 Hk Hs Hc
                 | k n der c r1 r2 r3 b Hk Hs Hc Hcb
                 | k n der c r1 r2 r3 b b' Hk Hs Hc Hcb Hkb ];
    rewrite Hk; cbn [with_rand rand_Reader];
    try (rewrite two_pow_128, Hs; cbn [value];
         try (match goal with
              | |- context [x509_CreateCertificate _ ?t _ _ _] =>
                  change t with (built domainName (time_Now w) n k)
              end;
              rewrite Hc;
              try (unfold getCertBuf; rewrite Hcb;
                   try (unfold getKeyBuf; rewrite Hkb))));
    eexists; split; reflexivity.
Qed.

End Runs.

(** ** Properties of the issued certificate *)

Section Certificate.
Context {Entropy FS File : Type} {L : GoLib Entropy FS File}.

(** A run that returns no error went through some [i]: it returns the bundle
    of [i], and the template it had signed is [built]. *)
Lemma success_issued (path domainName : string) (w w' : World Entropy FS)
    (ca : AuraeCA) :
  CreateAuraeRootCA path domainName w = ((Some ca, None), w') ->
  exists i,
    issued w ca i /\
    template i = built domainName (time_Now w) (serial i) (priv i).
Proof.
  intros H.
  pose proof (CreateAuraeRootCA_ending path domainName w) as Hend.
  rewrite H in Hend.
  inversion Hend as [ | i r1 r2 r3 Hp Hk Hs Ht Hc He
                      | i r1 r2 r3 err fs Hp Hk Hs Ht Hc He Hfs ];
    subst; exists i; (split; [ | assumption ]);
    (split; [ exists r1, r2, r3; auto | split; auto ]).
Qed.

Ltac issue H i Hi Ht :=
  destruct (success_issued _ _ _ _ _ H) as (i & Hi & Ht);
  exists i; split; [exact Hi | rewrite Ht; cbn].

(** C1. When [CreateAuraeRootCA] succeeds, the subject key identifier and the
    authority key identifier of the certificate are both the SHA-1 digest of
    the big-endian bytes of the modulus of the generated public key, hence
    equal to each other; the bytes hashed, read most significant first,
    denote the modulus. *)
Theorem key_identifiers_are_modulus_digest
    (path domainName : string) (w w' : World Entropy FS) (ca : AuraeCA) :
  CreateAuraeRootCA path domainName w = ((Some ca, None), w') ->
  exists i,
    issued w ca i /\
    x509.SubjectKeyId (template i)
      = sha1_Sum (big.Bytes (rsa.N (rsa.Public (priv i)))) /\
    x509.AuthorityKeyId (template i)
      = sha1_Sum (big.Bytes (rsa.N (rsa.Public (priv i)))) /\
    x509.SubjectKeyId (template i) = x509.AuthorityKeyId (template i) /\
    big.SetBytes (big.Bytes (rsa.N (rsa.Public (priv i))))
      = Z.abs (rsa.N (rsa.Public (priv i))).
Proof.
  intros H. issue H i Hi Ht. repeat split. apply SetBytes_Bytes.
Qed.

(** C3. When [CreateAuraeRootCA] succeeds, the serial number of the
    certificate is the value [rand.Int] drew for the limit [2^128], so by the
    contract of [rand.Int] it is at least 0 and less than [2^128]; and when
    the draw fails the call returns an error. *)
Theorem serial_number_below_2_128
    (Hrand : rand_Int_in_range L) (path domainName : string)
    (w : World Entropy FS) :
  (forall ca w',
      CreateAuraeRootCA path domainName w = ((Some ca, None), w') ->
      exists i,
        issued w ca i /\
        x509.SerialNumber (template i) = Some (serial i) /\
        0 <= serial i < 2 ^ 128) /\
  (forall k r1 c r2,
      rsa_GenerateKey (rand_Reader w) 2048 = (Ok k, r1) ->
      rand_Int r1 (big.Lsh 1 128) = (Err c, r2) ->
      CreateAuraeRootCA path domainName w
        = ((Some zero_AuraeCA,
            Some (Errorf "failed to generate serial number: " c)),
           with_rand w r2)).
Proof.
  split.
  - intros ca w' H. issue H i Hi Ht. split; [reflexivity|].
    destruct Hi as ((r1 & r2 & r3 & _ & Hs & _) & _).
    apply (Hrand r1 r2); [reflexivity | exact Hs].
  - intros k r1 c r2 Hk Hs. unfold CreateAuraeRootCA.
    rewrite Hk. cbn [with_rand rand_Reader]. unfold serialNumberLimit.
    rewrite Hs. reflexivity.
Qed.

(** C4. When [CreateAuraeRootCA] succeeds, notBefore of the certificate is
    the time read from the clock during the call, and notAfter lies exactly
    9999 days of 24 hours after it, as a difference of instants, as the
    [Duration] that [Sub] returns, and in whole seconds. *)
Theorem validity_is_9999_days
    (path domainName : string) (w w' : World Entropy FS) (ca : AuraeCA) :
  CreateAuraeRootCA path domainName w = ((Some ca, None), w') ->
  exists i,
    issued w ca i /\
    x509.NotBefore (template i) = time_Now w /\
    x509.NotAfter (template i) - x509.NotBefore (template i)
      = 9999 * (24 * time.Hour) /\
    time.Sub (x509.NotAfter (template i)) (x509.NotBefore (template i))
      = 9999 * (24 * time.Hour) /\
    time.Unix (x509.NotAfter (template i))
      - time.Unix (x509.NotBefore (template i)) = 9999 * 86400.
Proof.
  intros H. issue H i Hi Ht.
  split; [reflexivity|]. split; [lia|]. split.
  - unfold time.Sub.
    replace (time_Now w + 863913600000000000 - time_Now w)
      with 863913600000000000 by lia.
    reflexivity.
  - unfold time.Unix.
    change time.Second with 1000000000.
    replace (time_Now w + 863913600000000000)
      with (time_Now w + 863913600 * 1000000000) by lia.
    rewrite Z.div_add by lia. lia.
Qed.

(** C5, as amended.  The package validates nothing about the domain name.
    Whatever the name, the empty string and malformed names included: when
    [CreateAuraeRootCA] succeeds, the common name of the certificate is the
    name as given and its DNS names are the one-element list holding that
    same name; the call does succeed, for an empty path, and returns the
    bundle, for any path, as soon as key generation, the serial number
    draw, [x509.CreateCertificate] on the template carrying the name and
    the two encodings succeed; and a name that [x509.CreateCertificate]
    refuses is not accepted: the call returns the zero bundle and the
    certificate creation error. *)
Theorem domain_name_is_cn_and_sole_dns_name
    (path domainName : string) (w : World Entropy FS) :
  (forall ca w',
      CreateAuraeRootCA path domainName w = ((Some ca, None), w') ->
      exists i,
        issued w ca i /\
        pkix.CommonName (x509.Subject (template i)) = domainName /\
        x509.DNSNames (template i) = [domainName] /\
        List.length (x509.DNSNames (template i)) = 1%nat) /\
  (forall i,
      signed w i ->
      template i = built domainName (time_Now w) (serial i) (priv i) ->
      encoded i ->
      fst (CreateAuraeRootCA "" domainName w) = (Some (bundle i), None) /\
      fst (fst (CreateAuraeRootCA path domainName w)) = Some (bundle i)) /\
  (forall k n c r1 r2 r3,
      rsa_GenerateKey (rand_Reader w) 2048 = (Ok k, r1) ->
      rand_Int r1 (2 ^ 128) = (Ok n, r2) ->
      x509_CreateCertificate r2 (built domainName (time_Now w) n k)
        (built domainName (time_Now w) n k) (rsa.Public k) k = (Err c, r3) ->
      fst (CreateAuraeRootCA path domainName w)
      = (Some zero_AuraeCA,
         Some (Errorf "failed to create certificate: " c))).
Proof.
  split; [|split].
  - intros ca w' H. issue H i Hi Ht. auto.
  - intros i (r1 & r2 & r3 & Hk & Hs & Hc) Ht He. split.
    + rewrite (computed_outcome "" domainName w i r1 r2 r3 Hk Hs Ht Hc He).
      reflexivity.
    + rewrite (computed_outcome path domainName w i r1 r2 r3 Hk Hs Ht Hc He).
      destruct (String.eqb path ""); reflexivity.
  - intros k n c r1 r2 r3 Hk Hs Hc.
    destruct (aborted_outcome path domainName w _
                (abort_create w domainName k n c r1 r2 r3 Hk Hs Hc))
      as (w' & -> & _).
    reflexivity.
Qed.

(** C6. When [CreateAuraeRootCA] succeeds, the certificate has IsCA true
    and BasicConstraintsValid true. *)
Theorem certificate_is_ca
    (path domainName : string) (w w' : World Entropy FS) (ca : AuraeCA) :
  CreateAuraeRootCA path domainName w = ((Some ca, None), w') ->
  exists i,
    issued w ca i /\
    x509.IsCA (template i) = true /\
    x509.BasicConstraintsValid (template i) = true.
Proof.
  intros H. issue H i Hi Ht. auto.
Qed.

(** C9. The subject of the certificate has the constant identity
    Organization [Aurae], OrganizationalUnit [Runtime], StreetAddress
    [aurae], Locality [aurae], Country [IS]: a street address is set next
    to the four other fields.  These five are the full constant identity:
    the subject is exactly them and the common name, with no province, no
    postal code and no serial number. *)
Theorem subject_identity_is_constant
    (path domainName : string) (w w' : World Entropy FS) (ca : AuraeCA) :
  CreateAuraeRootCA path domainName w = ((Some ca, None), w') ->
  exists i,
    issued w ca i /\
    pkix.Organization (x509.Subject (template i)) = ["Aurae"] /\
    pkix.OrganizationalUnit (x509.Subject (template i)) = ["Runtime"] /\
    pkix.StreetAddress (x509.Subject (template i)) = ["aurae"] /\
    pkix.Locality (x509.Subject (template i)) = ["aurae"] /\
    pkix.Country (x509.Subject (template i)) = ["IS"] /\
    pkix.Province (x509.Subject (template i)) = [] /\
    pkix.PostalCode (x509.Subject (template i)) = [] /\
    pkix.SerialNumber (x509.Subject (template i)) = "" /\
    x509.Subject (template i)
    = {| pkix.Country := ["IS"];
         pkix.Organization := ["Aurae"];
         pkix.OrganizationalUnit := ["Runtime"];
         pkix.Locality := ["aurae"];
         pkix.Province := [];
         pkix.StreetAddress := ["aurae"];
         pkix.PostalCode := [];
         pkix.SerialNumber := "";
         pkix.CommonName := domainName |}.
Proof.
  intros H. issue H i Hi Ht. repeat split.
Qed.

(** C8. When [CreateAuraeRootCA] succeeds, the certificate string is what
    [pem.Encode] wrote for a block of type CERTIFICATE holding the DER bytes
    of the certificate, and the key string is what it wrote for a block of
    type RSA PRIVATE KEY holding the PKCS#1 encoding of the generated
    private key. *)
Theorem bundle_is_pem_of_der_and_pkcs1
    (path domainName : string) (w w' : World Entropy FS) (ca : AuraeCA) :
  CreateAuraeRootCA path domainName w = ((Some ca, None), w') ->
  exists i,
    signed w i /\
    pem_Encode []
      {| pem.Type_ := "CERTIFICATE"; pem.Headers := [];
         pem.Bytes := derBytes i |} = (None, certBuf i) /\
    Certificate ca = string_of_list_byte (certBuf i) /\
    pem_Encode []
      {| pem.Type_ := "RSA PRIVATE KEY"; pem.Headers := [];
         pem.Bytes := x509_MarshalPKCS1PrivateKey (priv i) |}
      = (None, keyBuf i) /\
    Key ca = string_of_list_byte (keyBuf i).
Proof.
  intros H.
  destruct (success_issued _ _ _ _ _ H) as (i & (Hs & (Hc & Hk) & ->) & _).
  exists i. cbn. auto.
Qed.

End Certificate.

(** ** Errors and persistence *)

Section Persistence.
Context {Entropy FS File : Type} {L : GoLib Entropy FS File}.

(** With an empty path the call never reaches [createCAFiles]. *)
Lemma empty_path_ending (domainName : string) (w : World Entropy FS)
    (out : (ptr AuraeCA * option error) * World Entropy FS) :
  ending "" domainName w out ->
  disk (snd out) = disk w /\ clock (snd out) = clock w.
Proof.
  intros H.
  inversion H as [ e w' Ha Hd Hc | i r1 r2 r3 Hp | i r1 r2 r3 err fs Hp ];
    subst; cbn; auto.
  congruence.
Qed.


(** C7. With an empty output path the file system after the call is the
    file system before it, whatever the library does on a file system call,
    and whether the call fails or not; and the call does not depend on the
    file system: started on any other one it returns the same bundle and
    error, and leaves that one as it was. *)
Theorem empty_path_no_filesystem_interaction
    (domainName : string) (w : World Entropy FS) :
  disk (snd (CreateAuraeRootCA "" domainName w)) = disk w /\
  forall fs : FS,
    CreateAuraeRootCA "" domainName (with_disk w fs)
      = (fst (CreateAuraeRootCA "" domainName w),
         with_disk (snd (CreateAuraeRootCA "" domainName w)) fs).
Proof.
  split.
  - apply (empty_path_ending domainName w), CreateAuraeRootCA_ending.
  - intros fs. unfold CreateAuraeRootCA.
    cbn [with_disk rand_Reader time_Now clock].
    destruct (rsa_GenerateKey (rand_Reader w) 2048) as [[k|c] r1];
      [ | reflexivity ].
    cbn [with_rand rand_Reader clock].
    destruct (rand_Int r1 serialNumberLimit) as [[n|c] r2]; [ | reflexivity ].
    cbn [value with_rand rand_Reader clock time_Now].
    destruct (x509_CreateCertificate r2 _ _ _ _) as [[der|c] r3];
      [ | reflexivity ].
    destruct (getCertBuf der) as [b [c|]]; [ reflexivity | ].
    destruct (getKeyBuf k) as [b' [c|]]; reflexivity.
Qed.


End Persistence.

(** ** Facts about the reference library *)

Example sha1_abc :
  sha1.Sum (list_byte_of_string "abc")
  = be 20 0xa9993e364706816aba3e25717850c26c9cd0d89d.
Proof. vm_compute. reflexivity. Qed.

Example sha1_empty :
  sha1.Sum [] = be 20 0xda39a3ee5e6b4b0d3255bfef95601890afd80709.
Proof. vm_compute. reflexivity. Qed.

Example sha1_two_blocks :
  sha1.Sum (list_byte_of_string
    "abcdbcdecdefdefgefghfghighijhijkijkljklmklmnlmnomnopnopq")
  = be 20 0x84983e441c3bd26ebaae4aa1f95129e5e54670f1.
Proof. vm_compute. reflexivity. Qed.

Example base64_foobar :
  string_of_list_byte (pem_text.base64 (list_byte_of_string "foobar"))
  = "Zm9vYmFy" /\
  string_of_list_byte (pem_text.base64 (list_byte_of_string "fooba"))
  = "Zm9vYmE=" /\
  string_of_list_byte (pem_text.base64 (list_byte_of_string "foob"))
  = "Zm9vYg==".
Proof. vm_compute. auto. Qed.

Lemma draw_in_range (fuel k : nat) (mask max : Z) (r r' : bytes) (n : Z) :
  rand.draw fuel k mask max r = (Ok n, r') -> 0 <= n < max.
Proof.
  revert r. induction fuel as [|fuel IH]; intros r; cbn [rand.draw].
  - discriminate.
  - destruct (Nat.ltb (List.length r) k); [discriminate|].
    destruct (Z.ltb_spec (big.SetBytes (rand.mask_first mask (firstn k r))) max)
      as [Hlt|Hge].
    + intros [= <- _]. split; [apply SetBytes_bound | exact Hlt].
    + apply IH.
Qed.

(** The reference [rand.Int] meets the contract of [rand.Int]. *)
Lemma lib_rand_Int_in_range : rand_Int_in_range lib.
Proof.
  intros r r' max n Hmax. cbn. unfold rand.Int.
  destruct (Z.leb_spec max 0); [lia|].
  destruct (Z.eqb_spec (max - 1) 0) as [H1|H1].
  - cbn. intros [= <- _]. lia.
  - destruct (Z.eqb_spec (Z.log2 (max - 1) + 1) 0) as [H2|H2].
    + intros [= <- _]. lia.
    + apply draw_in_range.
Qed.

Lemma be_length (k : nat) (n : Z) : List.length (be k n) = k.
Proof. induction k as [|k IH]; cbn [be List.length]; congruence. Qed.

Lemma SetBytes_be (k : nat) (n : Z) :
  big.SetBytes (be k n) = n mod 256 ^ Z.of_nat k.
Proof.
  induction k as [|k IH]; cbn [be].
  - cbn. symmetry. apply Z.mod_1_r.
  - rewrite SetBytes_cons, IH, be_length.
    unfold byte_of_Z. rewrite to_N_byte_of_N.
    2:{ apply N2Z.inj_lt. rewrite Z2N.id by (apply Z.mod_pos_bound; lia).
        apply Z.mod_pos_bound. lia. }
    rewrite Z2N.id by (apply Z.mod_pos_bound; lia).
    rewrite Z.shiftr_div_pow2 by lia.
    rewrite Nat2Z.inj_succ, Z.pow_succ_r by lia.
    replace (2 ^ (8 * Z.of_nat k)) with (256 ^ Z.of_nat k)
      by (rewrite Z.pow_mul_r by lia; reflexivity).
    set (P := 256 ^ Z.of_nat k).
    assert (0 < P) by (apply Z.pow_pos_nonneg; lia).
    rewrite (Z.mul_comm 256 P), Z.rem_mul_r by lia. ring.
Qed.

Lemma mask_first_255 (l : bytes) : rand.mask_first 255 l = l.
Proof.
  destruct l as [|b l]; [reflexivity|]. cbn [rand.mask_first].
  f_equal. destruct b; reflexivity.
Qed.

(** At the limit [2^128] the reference [rand.Int] takes the next sixteen
    bytes of the reader as they are, most significant first: no candidate is
    rejected and no bit is cleared. *)
Lemma Int_2_128 (r : bytes) :
  (16 <= List.length r)%nat ->
  rand.Int r (2 ^ 128) = (Ok (big.SetBytes (firstn 16 r)), skipn 16 r).
Proof.
  intros Hlen.
  change (rand.Int r (2 ^ 128))
    with (rand.draw (S (List.length r)) 16 255 (2 ^ 128) r).
  cbn [rand.draw].
  destruct (Nat.ltb_spec (List.length r) 16) as [Hlt|_]; [lia|].
  rewrite mask_first_255.
  pose proof (SetBytes_bound (firstn 16 r)) as Hb.
  rewrite length_firstn, Nat.min_l in Hb by exact Hlen.
  destruct (Z.ltb_spec (big.SetBytes (firstn 16 r)) (2 ^ 128)) as [_|Hge].
  - reflexivity.
  - change (256 ^ Z.of_nat 16) with (2 ^ 128) in Hb. lia.
Qed.

(** Uniformity of the reference draw: every value below [2^128] is drawn
    from exactly one block of sixteen bytes. *)
Lemma Int_2_128_uniform (n : Z) :
  0 <= n < 2 ^ 128 ->
  exists! block : bytes,
    List.length block = 16%nat /\
    forall rest, rand.Int (block ++ rest)%list (2 ^ 128) = (Ok n, rest).
Proof.
  intros Hn.
  assert (Hread : forall block rest,
            List.length block = 16%nat ->
            rand.Int (block ++ rest)%list (2 ^ 128)
            = (Ok (big.SetBytes block), rest)).
  { intros block rest Hb.
    rewrite Int_2_128 by (rewrite length_app; lia).
    rewrite <- Hb, firstn_app, skipn_app, firstn_all, skipn_all, Nat.sub_diag.
    cbn [firstn skipn app]. rewrite app_nil_r. reflexivity. }
  exists (be 16 n). split.
  - split; [apply be_length|].
    intros rest. rewrite Hread by apply be_length.
    rewrite SetBytes_be.
    change (256 ^ Z.of_nat 16) with (2 ^ 128). rewrite Z.mod_small by lia.
    reflexivity.
  - intros block [Hb Hdraw].
    apply SetBytes_inj; [rewrite be_length; auto|].
    specialize (Hdraw []). rewrite Hread in Hdraw by exact Hb.
    injection Hdraw as Hdraw.
    rewrite SetBytes_be.
    change (256 ^ Z.of_nat 16) with (2 ^ 128). rewrite Z.mod_small by lia.
    symmetry. exact Hdraw.
Qed.

(** ** The package on the reference library *)

Example run_without_path :
  CreateAuraeRootCA "" "example.aurae.io" w0 = ((Some ca0, None), w0') /\
  journal (disk w0') = [] /\
  String.prefix (pem_text.marker "BEGIN" "CERTIFICATE") (Certificate ca0) = true /\
  String.prefix (pem_text.marker "BEGIN" "RSA PRIVATE KEY") (Key ca0) = true /\
  x509.SubjectKeyId
    (built (L:=lib) "example.aurae.io" (clock w0) 0 key_b)
  = be 20 0x18ccec723a7d7f184906f5e42697f60844c4f956.
Proof. vm_compute. repeat split. Qed.

Example run_with_path :
  CreateAuraeRootCA "/tmp/testdir/" "example.aurae.io" w0
    = ((Some ca0, None), w0_saved) /\
  lookup "/tmp/testdir/ca.crt" (files (disk w0_saved))
    = Some (Certificate ca0, 0x180) /\
  lookup "/tmp/testdir/ca.key" (files (disk w0_saved))
    = Some (Key ca0, 0x180) /\
  rev (journal (disk w0_saved))
    = [MkdirAll "/tmp/testdir" 0x1ff;
       OpenFile "/tmp/testdir/ca.crt" 0x241 0x180;
       WriteString "/tmp/testdir/ca.crt" (Certificate ca0);
       Close "/tmp/testdir/ca.crt";
       OpenFile "/tmp/testdir/ca.key" 0x241 0x180;
       WriteString "/tmp/testdir/ca.key" (Key ca0);
       Close "/tmp/testdir/ca.key"].
Proof. vm_compute. auto. Qed.

Example run_blocked :
  fst (CreateAuraeRootCA "/tmp/testdir" "example.aurae.io" w_blocked)
  = (Some ca0,
     Some (Errorf "failed to create output directory: "
             (LibError "mkdir /tmp/testdir: not a directory"))).
Proof. vm_compute. reflexivity. Qed.

Example run_out_of_space :
  fst (CreateAuraeRootCA "/tmp/testdir" "example.aurae.io" w_small)
  = (Some ca0,
     Some (Errorf "failed to write file /tmp/testdir/ca.key: "
             (LibError "write /tmp/testdir/ca.key: no space left on device"))).
Proof. vm_compute. reflexivity. Qed.

Example run_out_of_randomness :
  fst (CreateAuraeRootCA "/tmp/testdir" "example.aurae.io" w_dry)
  = (Some zero_AuraeCA,
     Some (Errorf "failed to generate serial number: "
             (LibError "unexpected EOF"))).
Proof. vm_compute. reflexivity. Qed.

(** The theorems at these runs. *)

Lemma key_identifiers_are_modulus_digest_witness :
  CreateAuraeRootCA "" "example.aurae.io" w0 = ((Some ca0, None), w0') /\
  exists i,
    issued w0 ca0 i /\
    x509.SubjectKeyId (template i)
      = sha1_Sum (big.Bytes (rsa.N (rsa.Public (priv i)))) /\
    x509.AuthorityKeyId (template i)
      = sha1_Sum (big.Bytes (rsa.N (rsa.Public (priv i)))) /\
    x509.SubjectKeyId (template i) = x509.AuthorityKeyId (template i) /\
    big.SetBytes (big.Bytes (rsa.N (rsa.Public (priv i))))
      = Z.abs (rsa.N (rsa.Public (priv i))).
Proof.
  split; [vm_compute; reflexivity|].
  apply (key_identifiers_are_modulus_digest "" "example.aurae.io" w0 w0' ca0).
  vm_compute; reflexivity.
Defined.


Lemma serial_number_below_2_128_witness :
  rand_Int_in_range lib /\
  CreateAuraeRootCA "" "example.aurae.io" w0 = ((Some ca0, None), w0') /\
  exists i,
    issued w0 ca0 i /\
    x509.SerialNumber (template i) = Some (serial i) /\
    0 <= serial i < 2 ^ 128.
Proof.
  split; [exact lib_rand_Int_in_range|].
  split; [vm_compute; reflexivity|].
  apply (proj1 (serial_number_below_2_128 lib_rand_Int_in_range
                  "" "example.aurae.io" w0) ca0 w0').
  vm_compute; reflexivity.
Defined.

Lemma validity_is_9999_days_witness :
  CreateAuraeRootCA "" "example.aurae.io" w0 = ((Some ca0, None), w0') /\
  exists i,
    issued w0 ca0 i /\
    x509.NotBefore (template i) = now0 /\
    x509.NotAfter (template i) - x509.NotBefore (template i)
      = 9999 * (24 * time.Hour) /\
    time.Sub (x509.NotAfter (template i)) (x509.NotBefore (template i))
      = 9999 * (24 * time.Hour) /\
    time.Unix (x509.NotAfter (template i))
      - time.Unix (x509.NotBefore (template i)) = 9999 * 86400.
Proof.
  split; [vm_compute; reflexivity|].
  apply (validity_is_9999_days "" "example.aurae.io" w0 w0' ca0).
  vm_compute; reflexivity.
Defined.

Lemma domain_name_is_cn_and_sole_dns_name_witness :
  let w' := snd (CreateAuraeRootCA "" odd_name w0) in
  let refused := LibError "x509: DNS name cannot be encoded as an IA5String" in
  (CreateAuraeRootCA "" odd_name w0 = ((Some ca_odd, None), w') /\
   exists i,
     issued w0 ca_odd i /\
     pkix.CommonName (x509.Subject (template i)) = odd_name /\
     x509.DNSNames (template i) = [odd_name] /\
     List.length (x509.DNSNames (template i)) = 1%nat) /\
  (CreateAuraeRootCA "" "" w0 = ((Some ca_blank, None), w0') /\
   exists i,
     issued w0 ca_blank i /\
     pkix.CommonName (x509.Subject (template i)) = "" /\
     x509.DNSNames (template i) = [""] /\
     List.length (x509.DNSNames (template i)) = 1%nat) /\
  (x509_CreateCertificate (skipn 17 (stream 40))
     (built (L:=lib) umlaut_name (time_Now w0) n0 key_b)
     (built (L:=lib) umlaut_name (time_Now w0) n0 key_b)
     (rsa.Public key_b) key_b = (Err refused, skipn 17 (stream 40)) /\
   fst (CreateAuraeRootCA "" umlaut_name w0)
   = (Some zero_AuraeCA,
      Some (Errorf "failed to create certificate: " refused))).
Proof.
  intros w' refused.
  destruct (domain_name_is_cn_and_sole_dns_name "" odd_name w0)
    as (Hodd & _ & _).
  destruct (domain_name_is_cn_and_sole_dns_name "" "" w0)
    as (Hblank & _ & _).
  destruct (domain_name_is_cn_and_sole_dns_name "" umlaut_name w0)
    as (_ & _ & Hrefused).
  split.
  { split; [vm_compute; reflexivity|].
    apply (Hodd ca_odd w'). vm_compute; reflexivity. }
  split.
  { split; [vm_compute; reflexivity|].
    apply (Hblank ca_blank w0'). vm_compute; reflexivity. }
  split; [vm_compute; reflexivity|].
  apply (Hrefused key_b n0 refused (skipn 1 (stream 40))
           (skipn 17 (stream 40)) (skipn 17 (stream 40)));
    vm_compute; reflexivity.
Defined.

(** The claim as first stated, that for every domain name a certificate
    carrying it is issued, fails on the reference library: from the world
    in which [example.aurae.io] gets its certificate, the name that is not
    ASCII gets none. *)
Lemma not_every_domain_name_is_accepted :
  CreateAuraeRootCA "" "example.aurae.io" w0 = ((Some ca0, None), w0') /\
  ~ (forall domainName : string,
       exists ca w' i,
         CreateAuraeRootCA "" domainName w0 = ((Some ca, None), w') /\
         issued w0 ca i /\
         pkix.CommonName (x509.Subject (template i)) = domainName /\
         x509.DNSNames (template i) = [domainName]).
Proof.
  split; [vm_compute; reflexivity|].
  intros H. destruct (H umlaut_name) as (ca & w' & i & E & _).
  vm_compute in E. discriminate E.
Qed.

Lemma certificate_is_ca_witness :
  CreateAuraeRootCA "/tmp/testdir/" "example.aurae.io" w0
    = ((Some ca0, None), w0_saved) /\
  exists i,
    issued w0 ca0 i /\
    x509.IsCA (template i) = true /\
    x509.BasicConstraintsValid (template i) = true.
Proof.
  split; [vm_compute; reflexivity|].
  apply (certificate_is_ca "/tmp/testdir/" "example.aurae.io" w0 w0_saved ca0).
  vm_compute; reflexivity.
Defined.

Lemma bundle_is_pem_of_der_and_pkcs1_witness :
  CreateAuraeRootCA "/tmp/testdir/" "example.aurae.io" w0
    = ((Some ca0, None), w0_saved) /\
  exists i,
    signed w0 i /\
    pem_Encode []
      {| pem.Type_ := "CERTIFICATE"; pem.Headers := [];
         pem.Bytes := derBytes i |} = (None, certBuf i) /\
    Certificate ca0 = string_of_list_byte (certBuf i) /\
    pem_Encode []
      {| pem.Type_ := "RSA PRIVATE KEY"; pem.Headers := [];
         pem.Bytes := x509_MarshalPKCS1PrivateKey (priv i) |}
      = (None, keyBuf i) /\
    Key ca0 = string_of_list_byte (keyBuf i).
Proof.
  split; [vm_compute; reflexivity|].
  apply (bundle_is_pem_of_der_and_pkcs1
           "/tmp/testdir/" "example.aurae.io" w0 w0_saved ca0).
  vm_compute; reflexivity.
Defined.

Lemma subject_identity_is_constant_witness :
  CreateAuraeRootCA "" "example.aurae.io" w0 = ((Some ca0, None), w0') /\
  exists i,
    issued w0 ca0 i /\
    pkix.Organization (x509.Subject (template i)) = ["Aurae"] /\
    pkix.OrganizationalUnit (x509.Subject (template i)) = ["Runtime"] /\
    pkix.StreetAddress (x509.Subject (template i)) = ["aurae"] /\
    pkix.Locality (x509.Subject (template i)) = ["aurae"] /\
    pkix.Country (x509.Subject (template i)) = ["IS"] /\
    pkix.Province (x509.Subject (template i)) = [] /\
    pkix.PostalCode (x509.Subject (template i)) = [] /\
    pkix.SerialNumber (x509.Subject (template i)) = "" /\
    x509.Subject (template i)
    = {| pkix.Country := ["IS"];
         pkix.Organization := ["Aurae"];
         pkix.OrganizationalUnit := ["Runtime"];
         pkix.Locality := ["aurae"];
         pkix.Province := [];
         pkix.StreetAddress := ["aurae"];
         pkix.PostalCode := [];
         pkix.SerialNumber := "";
         pkix.CommonName := "example.aurae.io" |}.
Proof.
  split; [vm_compute; reflexivity|].
  apply (subject_identity_is_constant "" "example.aurae.io" w0 w0' ca0).
  vm_compute; reflexivity.
Defined.


(** * Further properties of the package *)

(** ** Runs, step by step *)

Section Steps.
Context {Entropy FS File : Type} {L : GoLib Entropy FS File}.

(** X1. The certificate of a successful run is self-signed:
    [x509.CreateCertificate] was given one and the same template as the
    certificate and as its parent, the public half of the key generated in
    this run as the key to certify, and that key as the signing key. *)
Theorem certificate_is_self_signed
    (path domainName : string) (w w' : World Entropy FS) (ca : AuraeCA) :
  CreateAuraeRootCA path domainName w = ((Some ca, None), w') ->
  exists (k : rsa.PrivateKey) (n : Z) (t : x509.Certificate)
         (der text : bytes) (r1 r2 r3 : Entropy),
    rsa_GenerateKey (rand_Reader w) 2048 = (Ok k, r1) /\
    rand_Int r1 (2 ^ 128) = (Ok n, r2) /\
    x509_CreateCertificate r2 t t (rsa.Public k) k = (Ok der, r3) /\
    pem_Encode []
      {| pem.Type_ := "CERTIFICATE"; pem.Headers := [];
         pem.Bytes := der |} = (None, text) /\
    Certificate ca = string_of_list_byte text.
Proof.
  intros H.
  destruct (success_issued _ _ _ _ _ H)
    as (i & ((r1 & r2 & r3 & Hk & Hs & Hc) & (Hcb & _) & ->) & _).
  exists (priv i), (serial i), (template i), (derBytes i), (certBuf i),
         r1, r2, r3.
  cbn. auto.
Qed.

(** X2. The package adds no failure of its own.  When key generation, the
    serial number draw, certificate creation and the two encodings succeed,
    the call returns the bundle of the two texts: with an empty path
    without error, with any other path together with whatever
    [createCAFiles] returns for that bundle. *)
Theorem library_success_gives_bundle
    (path domainName : string) (w : World Entropy FS)
    (k : rsa.PrivateKey) (n : Z) (der cb kb : bytes) (r1 r2 r3 : Entropy) :
  rsa_GenerateKey (rand_Reader w) 2048 = (Ok k, r1) ->
  rand_Int r1 (big.Lsh 1 128) = (Ok n, r2) ->
  x509_CreateCertificate r2 (built domainName (time_Now w) n k)
    (built domainName (time_Now w) n k) (rsa.Public k) k = (Ok der, r3) ->
  pem_Encode []
    {| pem.Type_ := "CERTIFICATE"; pem.Headers := []; pem.Bytes := der |}
    = (None, cb) ->
  pem_Encode []
    {| pem.Type_ := "RSA PRIVATE KEY"; pem.Headers := [];
       pem.Bytes := x509_MarshalPKCS1PrivateKey k |} = (None, kb) ->
  let ca := {| Certificate := string_of_list_byte cb;
               Key := string_of_list_byte kb |} in
  (path = "" ->
   CreateAuraeRootCA path domainName w
     = ((Some ca, None), with_rand w r3)) /\
  (path <> "" ->
   CreateAuraeRootCA path domainName w
     = ((Some ca, fst (createCAFiles path ca (disk w))),
        with_disk (with_rand w r3) (snd (createCAFiles path ca (disk w))))).
Proof.
  intros Hk Hs Hc Hcb Hkb ca.
  assert (Hrun : CreateAuraeRootCA path domainName w
            = if negb (String.eqb path "") then
                ((Some ca, fst (createCAFiles path ca (disk w))),
                 with_disk (with_rand w r3)
                   (snd (createCAFiles path ca (disk w))))
              else ((Some ca, None), with_rand w r3)).
  { unfold CreateAuraeRootCA.
    rewrite Hk. cbn [with_rand rand_Reader]. unfold serialNumberLimit.
    rewrite Hs. cbn [value].
    match goal with
    | |- context [x509_CreateCertificate _ ?t _ _ _] =>
        change t with (built domainName (time_Now w) n k)
    end.
    rewrite Hc. unfold getCertBuf, getKeyBuf. rewrite Hcb, Hkb.
    change {| Certificate := Buffer_String cb; Key := Buffer_String kb |}
      with ca.
    destruct (negb (String.eqb path "")); [|reflexivity].
    cbn [disk with_rand].
    destruct (createCAFiles path ca (disk w)) as [[e|] fs]; reflexivity. }
  split; intros Hp; rewrite Hrun.
  - subst path. reflexivity.
  - destruct (String.eqb_spec path ""); [contradiction | reflexivity].
Qed.

(** X3. The output path bears on persistence only.  Whatever the path, the
    bundle returned, the randomness consumed and the clock are those of the
    run with an empty path, and when that run fails the call fails in the
    same way, with the same error and an untouched file system. *)
Theorem path_bears_on_persistence_only
    (path domainName : string) (w : World Entropy FS) :
  fst (fst (CreateAuraeRootCA path domainName w))
    = fst (fst (CreateAuraeRootCA "" domainName w)) /\
  rand_Reader (snd (CreateAuraeRootCA path domainName w))
    = rand_Reader (snd (CreateAuraeRootCA "" domainName w)) /\
  clock (snd (CreateAuraeRootCA path domainName w))
    = clock (snd (CreateAuraeRootCA "" domainName w)) /\
  forall e,
    snd (fst (CreateAuraeRootCA "" domainName w)) = Some e ->
    CreateAuraeRootCA path domainName w = CreateAuraeRootCA "" domainName w.
Proof.
  unfold CreateAuraeRootCA.
  destruct (rsa_GenerateKey (rand_Reader w) 2048) as [[k|c] r1];
    [ | repeat split ].
  cbn [with_rand rand_Reader clock].
  destruct (rand_Int r1 serialNumberLimit) as [[n|c] r2]; [ | repeat split ].
  cbn [value with_rand rand_Reader clock time_Now].
  destruct (x509_CreateCertificate r2 _ _ _ _) as [[der|c] r3];
    [ | repeat split ].
  destruct (getCertBuf der) as [b [c|]]; [ repeat split | ].
  destruct (getKeyBuf k) as [b' [c|]]; [ repeat split | ].
  cbn [String.eqb negb].
  destruct (negb (String.eqb path "")).
  - cbn [disk with_rand].
    destruct (createCAFiles path _ (disk w)) as [[e|] fs];
      cbn; repeat split; intros e' [=].
  - cbn. repeat split.
Qed.

(** X4. The file system is touched only once the bundle is complete: when
    the file system after the call is not the one before it, the path is
    not empty, the bundle had been computed, and it is the one returned. *)
Theorem disk_changes_only_after_bundle
    (path domainName : string) (w w' : World Entropy FS)
    (p : ptr AuraeCA) (err : option error) :
  CreateAuraeRootCA path domainName w = ((p, err), w') ->
  disk w' <> disk w ->
  path <> "" /\ exists i, issued w (bundle i) i /\ p = Some (bundle i).
Proof.
  intros H Hd.
  pose proof (CreateAuraeRootCA_ending path domainName w) as Hend.
  rewrite H in Hend.
  inversion Hend as [ e w0 Ha Hd' Hc
                    | i r1 r2 r3 Hp Hk Hs Ht Hcr He
                    | i r1 r2 r3 err' fs Hp Hk Hs Ht Hcr He Hfs ]; subst.
  - contradiction.
  - exfalso. apply Hd. reflexivity.
  - split; [exact Hp|]. exists i. split; [|reflexivity].
    split; [exists r1, r2, r3; auto|]. split; [exact He | reflexivity].
Qed.

(** X5. The error of the deferred close is dropped, and so is the count of
    bytes written: when the file opens and the write reports no error,
    [writeStringToFile] returns nil whatever [Close] returns. *)
Theorem writeStringToFile_drops_close_error
    (p s : string) (fs fs1 fs2 : FS) (f : File) (n : Z) :
  os_OpenFile p (Z.lor (Z.lor os.O_WRONLY os.O_CREATE) os.O_TRUNC) 0x180 fs
    = (Ok f, fs1) ->
  File_WriteString f s fs1 = ((n, None), fs2) ->
  writeStringToFile p s fs = (None, snd (File_Close f fs2)).
Proof.
  intros Ho Hw. unfold writeStringToFile. rewrite Ho, Hw.
  destruct (File_Close f fs2) as [c fs3]. reflexivity.
Qed.

(** X9. Only the cleaned path counts.  When cleaning the path once more
    changes nothing, [createCAFiles] does the same for the path and for the
    cleaned path; and so does [CreateAuraeRootCA], when neither of them is
    the empty string. *)
Theorem cleaned_path_is_equivalent
    (path domainName : string) (ca : AuraeCA) (w : World Entropy FS) :
  filepath_Clean (filepath_Clean path) = filepath_Clean path ->
  (forall fs,
      createCAFiles (filepath_Clean path) ca fs = createCAFiles path ca fs) /\
  (path <> "" -> filepath_Clean path <> "" ->
   CreateAuraeRootCA (filepath_Clean path) domainName w
     = CreateAuraeRootCA path domainName w).
Proof.
  intros Hclean.
  assert (Hfiles : forall ca' fs,
            createCAFiles (filepath_Clean path) ca' fs
            = createCAFiles path ca' fs).
  { intros ca' fs. unfold createCAFiles. rewrite Hclean. reflexivity. }
  split; [apply Hfiles|].
  intros Hp Hc. unfold CreateAuraeRootCA.
  destruct (String.eqb_spec path ""); [contradiction|].
  destruct (String.eqb_spec (filepath_Clean path) ""); [contradiction|].
  cbn [negb].
  destruct (rsa_GenerateKey (rand_Reader w) 2048) as [[k|c] r1];
    [ | reflexivity ].
  cbn [with_rand rand_Reader clock].
  destruct (rand_Int r1 serialNumberLimit) as [[serial0|c] r2];
    [ | reflexivity ].
  cbn [value with_rand rand_Reader clock time_Now].
  destruct (x509_CreateCertificate r2 _ _ _ _) as [[der|c] r3];
    [ | reflexivity ].
  destruct (getCertBuf der) as [b [c|]]; [ reflexivity | ].
  destruct (getKeyBuf k) as [b' [c|]]; [ reflexivity | ].
  rewrite Hfiles. reflexivity.
Qed.

(** X11. The first step that fails decides the outcome: when a step before
    persistence fails, the call returns the zero bundle with the error of
    that step, whatever the path, and leaves the file system untouched. *)
Theorem aborted_run_returns_that_error
    (path domainName : string) (w : World Entropy FS) (e : error) :
  aborted w domainName e ->
  fst (CreateAuraeRootCA path domainName w) = (Some zero_AuraeCA, Some e) /\
  disk (snd (CreateAuraeRootCA path domainName w)) = disk w.
Proof.
  intros Ha.
  pose proof (CreateAuraeRootCA_ending path domainName w) as Hend.
  destruct (CreateAuraeRootCA path domainName w) as [[p err] w'].
  cbn [fst snd].
  assert (Hsame : forall k k' r r',
            rsa_GenerateKey (rand_Reader w) 2048 = (Ok k, r) ->
            rsa_GenerateKey (rand_Reader w) 2048 = (Ok k', r') ->
            k = k' /\ r = r') by (intros; split; congruence).
  inversion Hend as [ e' w0 Ha' Hd' Hc
                    | i r1 r2 r3 Hp Hk Hs Ht Hcr He
                    | i r1 r2 r3 err' fs Hp Hk Hs Ht Hcr He Hfs ]; subst.
  - split; [|assumption].
    destruct Ha, Ha'; repeat f_equal; congruence.
  - exfalso. destruct He as [Hcb Hkb]. rewrite Ht in Hcr.
    destruct Ha; congruence.
  - exfalso. destruct He as [Hcb Hkb]. rewrite Ht in Hcr.
    destruct Ha; congruence.
Qed.

End Steps.

(** ** The calls of the persistence functions *)


Section Calls.
Context {Entropy FS File : Type} {L : GoLib Entropy FS File}.

Lemma flags_are_0x241 :
  Z.lor (Z.lor os.O_WRONLY os.O_CREATE) os.O_TRUNC = 0x241.
Proof. reflexivity. Qed.

(** [writeStringToFile] with its calls recorded, next to the plain one. *)
Lemma traced_writeStringToFile (p s : string) (fs : FS)
    (log : list (fs_call File)) :
  exists calls,
    writeStringToFile (L:=traced L) p s (fs, log)
      = (fst (writeStringToFile p s fs),
         (snd (writeStringToFile p s fs), (log ++ calls)%list)) /\
    written p s (fst (writeStringToFile p s fs)) calls.
Proof.
  unfold writeStringToFile. cbn [traced os_OpenFile File_WriteString
    File_Close fst snd]. rewrite flags_are_0x241.
  destruct (os_OpenFile p 0x241 0x180 fs) as [[f|c] fs1]; cbn [value fst snd].
  - destruct (File_WriteString f s fs1) as [[n [c|]] fs2]; cbn [fst snd];
      destruct (File_Close f fs2) as [c' fs3]; cbn [fst snd];
      eexists; (split;
        [ rewrite <- !app_assoc; cbn [app]; reflexivity | constructor ]).
  - eexists. split; [reflexivity | constructor].
Qed.

(** X6. When [writeStringToFile] returns an error or nil and a file system,
    it returns the same on the recording library, and the calls it makes
    are a failed open and nothing more, or an open with flags
    O_WRONLY|O_CREATE|O_TRUNC and mode 0600, one write of the string to the
    handle opened and one close of that handle, also when the write
    failed. *)
Theorem writeStringToFile_calls (p s : string) (fs fs' : FS)
    (err : option error) (log : list (fs_call File)) :
  writeStringToFile p s fs = (err, fs') ->
  exists calls,
    writeStringToFile (L:=traced L) p s (fs, log)
      = (err, (fs', (log ++ calls)%list)) /\
    written p s err calls /\
    (1 <= List.length calls <= 3)%nat.
Proof.
  intros H.
  destruct (traced_writeStringToFile p s fs log) as (calls & E & W).
  rewrite H in E, W. cbn [fst snd] in E, W.
  exists calls. split; [exact E|]. split; [exact W|].
  destruct W; cbn [List.length]; lia.
Qed.

(** [createCAFiles] with its calls recorded, next to the plain one. *)
Lemma traced_createCAFiles (path : string) (ca : AuraeCA) (fs : FS)
    (log : list (fs_call File)) :
  exists calls,
    createCAFiles (L:=traced L) path ca (fs, log)
      = (fst (createCAFiles path ca fs),
         (snd (createCAFiles path ca fs), (log ++ calls)%list)) /\
    persisted path ca (fst (createCAFiles path ca fs)) calls.
Proof.
  unfold createCAFiles.
  cbn [traced os_MkdirAll filepath_Clean filepath_Join fst snd].
  destruct (os_MkdirAll (filepath_Clean path) os.ModePerm fs) as [[c|] fs1];
    cbn [fst snd].
  { eexists. split; [reflexivity | apply persisted_no_directory]. }
  set (mk := call_MkdirAll (filepath_Clean path) os.ModePerm).
  destruct (traced_writeStringToFile
              (filepath_Join (filepath_Clean path) "ca.crt") (Certificate ca)
              fs1 (log ++ [mk])%list) as (calls1 & E1 & W1).
  cbn [traced filepath_Join] in E1. rewrite E1. clear E1.
  destruct (writeStringToFile (filepath_Join (filepath_Clean path) "ca.crt")
              (Certificate ca) fs1) as [[e1|] fs2]; cbn [fst snd] in *.
  { exists (mk :: calls1). split.
    - rewrite <- app_assoc. reflexivity.
    - apply persisted_no_certificate. exact W1. }
  destruct (traced_writeStringToFile
              (filepath_Join (filepath_Clean path) "ca.key") (Key ca)
              fs2 ((log ++ [mk]) ++ calls1)%list) as (calls2 & E2 & W2).
  cbn [traced filepath_Join] in E2. rewrite E2. clear E2.
  destruct (writeStringToFile (filepath_Join (filepath_Clean path) "ca.key")
              (Key ca) fs2) as [[e2|] fs3]; cbn [fst snd] in *;
    (exists (mk :: calls1 ++ calls2)%list; split;
     [ rewrite <- !app_assoc; reflexivity
     | apply persisted_certificate; assumption ]).
Qed.


(** Recording the calls does not change a run. *)
Lemma traced_CreateAuraeRootCA (path domainName : string)
    (w : World Entropy (FS * list (fs_call File))) :
  fst (CreateAuraeRootCA (L:=traced L) path domainName w)
    = fst (CreateAuraeRootCA path domainName (erase w)) /\
  erase (snd (CreateAuraeRootCA (L:=traced L) path domainName w))
    = snd (CreateAuraeRootCA path domainName (erase w)).
Proof.
  unfold CreateAuraeRootCA.
  cbn [traced rsa_GenerateKey rand_Int sha1_Sum x509_CreateCertificate
       erase rand_Reader clock time_Now].
  destruct (rsa_GenerateKey (rand_Reader w) 2048) as [[k|c] r1];
    [ | split; reflexivity ].
  cbn [with_rand rand_Reader clock].
  destruct (rand_Int r1 serialNumberLimit) as [[n|c] r2];
    [ | split; reflexivity ].
  cbn [value with_rand rand_Reader clock time_Now].
  destruct (x509_CreateCertificate r2 _ _ _ _) as [[der|c] r3];
    [ | split; reflexivity ].
  change (getCertBuf (L:=traced L) der) with (getCertBuf (L:=L) der).
  destruct (getCertBuf der) as [b [c|]]; [ split; reflexivity | ].
  change (getKeyBuf (L:=traced L) k) with (getKeyBuf (L:=L) k).
  destruct (getKeyBuf k) as [b' [c|]]; [ split; reflexivity | ].
  destruct (negb (String.eqb path "")); [ | split; reflexivity ].
  cbn [disk with_rand erase].
  destruct (disk w) as [fs log]. cbn [fst].
  destruct (traced_createCAFiles path
              {| Certificate := Buffer_String b; Key := Buffer_String b' |}
              fs log) as (calls & E & _).
  rewrite E. cbn [fst].
  destruct (createCAFiles path _ fs) as [[e|] fs']; split; reflexivity.
Qed.

Lemma traced_aborted (w : World Entropy (FS * list (fs_call File)))
    (domainName : string) (e : error) :
  aborted (L:=traced L) w domainName e -> aborted (erase w) domainName e.
Proof.
  intros H. destruct H.
  - eapply abort_key; eassumption.
  - eapply abort_serial; eassumption.
  - eapply abort_create; eassumption.
  - eapply abort_cert_text; eassumption.
  - eapply abort_key_text; eassumption.
Qed.

(** X8. A run on the recording library returns what the plain run returns.
    It makes no call on the file system when the path is empty or when a
    step before persistence fails.  Otherwise the bundle it returns had
    been computed first, and the calls are those of [createCAFiles] for
    that bundle: what is written to [ca.crt] and [ca.key] is the
    certificate string and the key string returned. *)
Theorem CreateAuraeRootCA_calls (path domainName : string)
    (w w' : World Entropy (FS * list (fs_call File)))
    (p : ptr AuraeCA) (err : option error) :
  CreateAuraeRootCA (L:=traced L) path domainName w = ((p, err), w') ->
  fst (CreateAuraeRootCA path domainName (erase w)) = (p, err) /\
  snd (CreateAuraeRootCA path domainName (erase w)) = erase w' /\
  exists calls,
    snd (disk w') = (snd (disk w) ++ calls)%list /\
    ((calls = [] /\
      (path = "" \/
       exists e, err = Some e /\ aborted (erase w) domainName e)) \/
     (path <> "" /\
      exists ca i,
        p = Some ca /\ issued (erase w) ca i /\
        persisted path ca err calls)).
Proof.
  intros H.
  destruct (traced_CreateAuraeRootCA path domainName w) as [E1 E2].
  rewrite H in E1, E2. cbn [fst snd] in E1, E2.
  split; [symmetry; exact E1|]. split; [symmetry; exact E2|].
  pose proof (CreateAuraeRootCA_ending (L:=traced L) path domainName w)
    as Hend.
  rewrite H in Hend.
  inversion Hend as [ e w0 Ha Hd Hc
                    | i r1 r2 r3 Hp Hk Hs Ht Hcr He
                    | i r1 r2 r3 err' fs Hp Hk Hs Ht Hcr He Hfs ]; subst.
  - exists []. rewrite Hd, app_nil_r. split; [reflexivity|].
    left. split; [reflexivity|]. right. exists e. split; [reflexivity|].
    apply traced_aborted. exact Ha.
  - exists []. cbn [with_rand disk]. rewrite app_nil_r.
    split; [reflexivity|]. left. auto.
  - cbn [with_disk with_rand disk].
    destruct (disk w) as [fs0 log] eqn:Ew.
    destruct (traced_createCAFiles path (bundle i) fs0 log)
      as (calls & E & Hcalls).
    rewrite E in Hfs. injection Hfs as Herr Hfs. subst fs err.
    exists calls. cbn [snd]. split; [reflexivity|].
    right. split; [exact Hp|].
    exists (bundle i), i. split; [reflexivity|]. split; [|exact Hcalls].
    split; [exists r1, r2, r3; cbn [erase rand_Reader]; auto|].
    split; [exact He | reflexivity].
Qed.

End Calls.

(** ** The further properties on the reference library *)

Example calls_of_a_saved_run :
  snd (disk (snd (CreateAuraeRootCA (L:=traced lib) "/tmp/testdir/"
                    "example.aurae.io" (untraced w0))))
  = [call_MkdirAll "/tmp/testdir" 0x1ff;
     call_OpenFile "/tmp/testdir/ca.crt" 0x241 0x180
       (Some "/tmp/testdir/ca.crt");
     call_WriteString "/tmp/testdir/ca.crt" (Certificate ca0);
     call_Close "/tmp/testdir/ca.crt";
     call_OpenFile "/tmp/testdir/ca.key" 0x241 0x180
       (Some "/tmp/testdir/ca.key");
     call_WriteString "/tmp/testdir/ca.key" (Key ca0);
     call_Close "/tmp/testdir/ca.key"].
Proof. vm_compute. reflexivity. Qed.

Example calls_of_a_blocked_run :
  snd (disk (snd (CreateAuraeRootCA (L:=traced lib) "/tmp/testdir"
                    "example.aurae.io" (untraced w_blocked))))
  = [call_MkdirAll "/tmp/testdir" 0x1ff].
Proof. vm_compute. reflexivity. Qed.

Example calls_of_a_dry_run :
  snd (disk (snd (CreateAuraeRootCA (L:=traced lib) "/tmp/testdir"
                    "example.aurae.io" (untraced w_dry))))
  = [].
Proof. vm_compute. reflexivity. Qed.

Lemma certificate_is_self_signed_witness :
  CreateAuraeRootCA "" "example.aurae.io" w0 = ((Some ca0, None), w0') /\
  exists (k : rsa.PrivateKey) (n : Z) (t : x509.Certificate)
         (der text : bytes) (r1 r2 r3 : bytes),
    rsa_GenerateKey (rand_Reader w0) 2048 = (Ok k, r1) /\
    rand_Int r1 (2 ^ 128) = (Ok n, r2) /\
    x509_CreateCertificate r2 t t (rsa.Public k) k = (Ok der, r3) /\
    pem_Encode []
      {| pem.Type_ := "CERTIFICATE"; pem.Headers := [];
         pem.Bytes := der |} = (None, text) /\
    Certificate ca0 = string_of_list_byte text.
Proof.
  split; [vm_compute; reflexivity|].
  apply (certificate_is_self_signed "" "example.aurae.io" w0 w0' ca0).
  vm_compute; reflexivity.
Defined.

Lemma library_success_gives_bundle_witness :
  let t := built (L:=lib) "example.aurae.io" (time_Now w_small) n0 key_b in
  let ca := {| Certificate := string_of_list_byte cb0;
               Key := string_of_list_byte kb0 |} in
  (rsa_GenerateKey (rand_Reader w_small) 2048
     = (Ok key_b, skipn 1 (stream 40)) /\
   rand_Int (skipn 1 (stream 40)) (big.Lsh 1 128)
     = (Ok n0, skipn 17 (stream 40)) /\
   x509_CreateCertificate (skipn 17 (stream 40)) t t (rsa.Public key_b) key_b
     = (Ok der0, skipn 17 (stream 40)) /\
   pem_Encode []
     {| pem.Type_ := "CERTIFICATE"; pem.Headers := []; pem.Bytes := der0 |}
     = (None, cb0) /\
   pem_Encode []
     {| pem.Type_ := "RSA PRIVATE KEY"; pem.Headers := [];
        pem.Bytes := x509_MarshalPKCS1PrivateKey key_b |} = (None, kb0)) /\
  ("/tmp/testdir" = "" ->
   CreateAuraeRootCA "/tmp/testdir" "example.aurae.io" w_small
     = ((Some ca, None), with_rand w_small (skipn 17 (stream 40)))) /\
  ("/tmp/testdir" <> "" ->
   CreateAuraeRootCA "/tmp/testdir" "example.aurae.io" w_small
     = ((Some ca, fst (createCAFiles "/tmp/testdir" ca (disk w_small))),
        with_disk (with_rand w_small (skipn 17 (stream 40)))
          (snd (createCAFiles "/tmp/testdir" ca (disk w_small))))).
Proof.
  intros t ca.
  split; [repeat split; vm_compute; reflexivity|].
  apply (library_success_gives_bundle "/tmp/testdir" "example.aurae.io"
           w_small key_b n0 der0 cb0 kb0
           (skipn 1 (stream 40)) (skipn 17 (stream 40))
           (skipn 17 (stream 40)));
    vm_compute; reflexivity.
Defined.

Lemma disk_changes_only_after_bundle_witness :
  CreateAuraeRootCA "/tmp/testdir/" "example.aurae.io" w0
    = ((Some ca0, None), w0_saved) /\
  disk w0_saved <> disk w0 /\
  "/tmp/testdir/" <> "" /\
  exists i, issued w0 (bundle i) i /\ Some ca0 = Some (bundle i).
Proof.
  assert (Hd : disk w0_saved <> disk w0).
  { intros E. vm_compute in E. discriminate E. }
  split; [vm_compute; reflexivity|]. split; [exact Hd|].
  apply (disk_changes_only_after_bundle "/tmp/testdir/" "example.aurae.io"
           w0 w0_saved (Some ca0) None).
  - vm_compute; reflexivity.
  - exact Hd.
Defined.

Lemma writeStringToFile_drops_close_error_witness :
  let name := "/tmp/testdir/ca.crt" in
  let d1 := snd (fs_OpenFile name 0x241 0x180 small_disk) in
  let d2 := snd (fs_WriteString name "text" d1) in
  os_OpenFile (GoLib:=lib_close_fails) name
    (Z.lor (Z.lor os.O_WRONLY os.O_CREATE) os.O_TRUNC) 0x180 small_disk
    = (Ok name, d1) /\
  File_WriteString (GoLib:=lib_close_fails) name "text" d1 = ((4, None), d2) /\
  fst (File_Close (GoLib:=lib_close_fails) name d2)
    = Some (LibError "close /tmp/testdir/ca.crt: input/output error") /\
  writeStringToFile (L:=lib_close_fails) name "text" small_disk
    = (None, snd (File_Close (GoLib:=lib_close_fails) name d2)).
Proof.
  intros name d1 d2.
  split; [vm_compute; reflexivity|].
  split; [vm_compute; reflexivity|].
  split; [vm_compute; reflexivity|].
  apply (writeStringToFile_drops_close_error (L:=lib_close_fails)
           name "text" small_disk d1 d2 name 4);
    vm_compute; reflexivity.
Defined.

Lemma CreateAuraeRootCA_calls_witness :
  let e := Errorf "failed to write file /tmp/testdir/ca.key: "
             (LibError "write /tmp/testdir/ca.key: no space left on device") in
  let w' := snd (CreateAuraeRootCA (L:=traced lib) "/tmp/testdir"
                   "example.aurae.io" (untraced w_small)) in
  CreateAuraeRootCA (L:=traced lib) "/tmp/testdir" "example.aurae.io"
    (untraced w_small) = ((Some ca0, Some e), w') /\
  fst (CreateAuraeRootCA "/tmp/testdir" "example.aurae.io"
         (erase (untraced w_small))) = (Some ca0, Some e) /\
  snd (CreateAuraeRootCA "/tmp/testdir" "example.aurae.io"
         (erase (untraced w_small))) = erase w' /\
  exists calls,
    snd (disk w') = (snd (disk (untraced w_small)) ++ calls)%list /\
    ((calls = [] /\
      ("/tmp/testdir" = "" \/
       exists e', Some e = Some e' /\
         aborted (erase (untraced w_small)) "example.aurae.io" e')) \/
     ("/tmp/testdir" <> "" /\
      exists ca i,
        Some ca0 = Some ca /\ issued (erase (untraced w_small)) ca i /\
        persisted "/tmp/testdir" ca (Some e) calls)).
Proof.
  intros e w'.
  split; [vm_compute; reflexivity|].
  apply (CreateAuraeRootCA_calls (L:=lib) "/tmp/testdir" "example.aurae.io"
           (untraced w_small) w' (Some ca0) (Some e)).
  vm_compute; reflexivity.
Defined.

Lemma cleaned_path_is_equivalent_witness :
  filepath_Clean (filepath_Clean "/tmp/testdir/")
    = filepath_Clean "/tmp/testdir/" /\
  (forall fs,
      createCAFiles (filepath_Clean "/tmp/testdir/") ca0 fs
      = createCAFiles "/tmp/testdir/" ca0 fs) /\
  ("/tmp/testdir/" <> "" -> filepath_Clean "/tmp/testdir/" <> "" ->
   CreateAuraeRootCA (filepath_Clean "/tmp/testdir/") "example.aurae.io" w0
     = CreateAuraeRootCA "/tmp/testdir/" "example.aurae.io" w0).
Proof.
  split; [vm_compute; reflexivity|].
  apply (cleaned_path_is_equivalent "/tmp/testdir/" "example.aurae.io"
           ca0 w0).
  vm_compute; reflexivity.
Defined.

Lemma aborted_run_returns_that_error_witness :
  let e := Errorf "failed to generate serial number: "
             (LibError "unexpected EOF") in
  aborted w_dry "example.aurae.io" e /\
  fst (CreateAuraeRootCA "/tmp/testdir" "example.aurae.io" w_dry)
    = (Some zero_AuraeCA, Some e) /\
  disk (snd (CreateAuraeRootCA "/tmp/testdir" "example.aurae.io" w_dry))
    = disk w_dry.
Proof.
  intros e.
  assert (Ha : aborted w_dry "example.aurae.io" e).
  { apply (abort_serial w_dry "example.aurae.io" key_b
             (LibError "unexpected EOF") (skipn 1 (stream 10)) []);
      vm_compute; reflexivity. }
  split; [exact Ha|].
  apply (aborted_run_returns_that_error "/tmp/testdir" "example.aurae.io"
           w_dry e Ha).
Defined.

Lemma writeStringToFile_calls_witness :
  let name := "/tmp/testdir/ca.key" in
  let text := Key ca0 in
  let out := writeStringToFile name text small_disk in
  writeStringToFile name text small_disk = (fst out, snd out) /\
  exists calls,
    writeStringToFile (L:=traced lib) name text (small_disk, [])
      = (fst out, (snd out, ([] ++ calls)%list)) /\
    written name text (fst out) calls /\
    (1 <= List.length calls <= 3)%nat.
Proof.
  intros name text out.
  split; [vm_compute; reflexivity|].
  apply (writeStringToFile_calls (L:=lib) name text small_disk (snd out)
           (fst out) []).
  vm_compute; reflexivity.
Defined.

